(** * Web3Auth -> Algorand key adapter, signer and signature verifier

    A shallow embedding of [src/web3auth/algorandAdapter.ts] and of
    [verifyWeb3AuthSignature] from [src/web3auth/web3authIntegration.ts].

    - JavaScript values that the code throws are [JsValue]s; a computation
      that may throw is a [Completion].
    - [Uint8Array]s are lists of bytes, JavaScript strings are [string]s.
    - [algosdk] is an external library: its five primitives used by the
      code are the fields of the interface [Algosdk]; what the code relies
      on from them is stated as separate laws, taken as hypotheses by the
      theorems that need them. *)

From Stdlib Require Import List String Ascii Bool Arith NArith Lia.
From Stdlib.Strings Require Import Byte.
From Stdlib.Numbers Require Import DecimalString.
Import ListNotations.
Open Scope string_scope.

(** ** JavaScript fragments used by the code *)

(** A [Uint8Array]. *)
Definition bytes := list byte.

(** A thrown value: an instance of [Error] with its [message], or anything
    else ([error instanceof Error] is false on it). *)
Inductive JsValue : Type :=
| JsError (message : string)
| JsNonError (repr : string).

(** The outcome of running a piece of code: a value, or a thrown value. A
    rejected promise of an [async] function is a [Throw]. *)
Inductive Completion (A : Type) : Type :=
| Return (a : A)
| Throw (e : JsValue).

Arguments Return {A} a.
Arguments Throw {A} e.

Definition bind {A B} (c : Completion A) (k : A -> Completion B) : Completion B :=
  match c with
  | Return a => k a
  | Throw e => Throw e
  end.

(** [try { body } catch (error) { handler error }] *)
Definition try_catch {A} (body : Completion A) (handler : JsValue -> Completion A)
  : Completion A :=
  match body with
  | Return a => Return a
  | Throw e => handler e
  end.

Declare Scope js_scope.
Delimit Scope js_scope with js.
Notation "x <- c ;; k" := (bind c (fun x => k))
  (at level 61, c at next level, right associativity) : js_scope.
Open Scope js_scope.

(** The value of a hexadecimal digit, either case. *)
Definition hexCharValue (c : ascii) : option N :=
  let n := N_of_ascii c in
  if (48 <=? n)%N && (n <=? 57)%N then Some (n - 48)%N
  else if (97 <=? n)%N && (n <=? 102)%N then Some (n - 87)%N
  else if (65 <=? n)%N && (n <=? 70)%N then Some (n - 55)%N
  else None.

Definition byte_of_nibbles (a b : N) : byte :=
  byte_of_ascii (ascii_of_N (16 * a + b)).

(** [Buffer.from(s, 'hex')] on a string of characters below U+0100: decodes
    two characters at a time and stops, without throwing, at the first pair
    that is not two hexadecimal digits; a trailing single character is
    dropped. [Utf16.Buffer_from_hex] below is the decoder on every JavaScript
    string, and agrees with this one on these strings
    ([Utf16Facts.Buffer_from_hex_ofString]). *)
Fixpoint Buffer_from_hex (s : string) : bytes :=
  match s with
  | String c1 (String c2 rest) =>
      match hexCharValue c1, hexCharValue c2 with
      | Some a, Some b => byte_of_nibbles a b :: Buffer_from_hex rest
      | _, _ => []
      end
  | _ => []
  end.

(** [s.slice(n)] on a string. *)
Fixpoint string_slice_from (n : nat) (s : string) : string :=
  match n, s with
  | O, _ => s
  | S n', String _ rest => string_slice_from n' rest
  | S _, EmptyString => EmptyString
  end.

(** [s.startsWith(p)] *)
Definition startsWith (s p : string) : bool := prefix p s.

(** [a.slice(from, to)] on a [Uint8Array], for [0 <= from <= to]. *)
Definition slice (from to : nat) (a : bytes) : bytes :=
  firstn (to - from) (skipn from a).

(** [Buffer.from(a).equals(b)] *)
Fixpoint Buffer_equals (a b : bytes) : bool :=
  match a, b with
  | [], [] => true
  | x :: a', y :: b' => Byte.eqb x y && Buffer_equals a' b'
  | _, _ => false
  end.

(** The decimal digits of a number inside a template string. *)
Definition decimal (n : nat) : string := NilZero.string_of_uint (Nat.to_uint n).

(** ** The algosdk interface *)

(** What [mnemonicToSecretKey] returns. *)
Record Account : Type := { addr : string; sk : bytes }.

(** What [signTransaction] returns. *)
Record SignedTxnResult : Type := { txID : string; blob : bytes }.

(** The part of a decoded signed transaction that [verifyWeb3AuthSignature]
    reads: [sig], and inside it the properties [signers] and [signer]. A [sig]
    that is a [Uint8Array] has neither property: both are [None]. *)
Record SigInfo : Type := { signers : option (list bytes); signer : option bytes }.
Record DecodedSignedTxn : Type := { sig : option SigInfo }.

(** What [decodeAddress] returns (the code reads [publicKey] only). *)
Record DecodedAddress : Type := { publicKey : bytes }.

Class Algosdk : Type := {
  secretKeyToMnemonic : bytes -> Completion string;
  mnemonicToSecretKey : string -> Completion Account;
  signTransaction : bytes -> bytes -> Completion SignedTxnResult;
  decodeSignedTransaction : bytes -> Completion DecodedSignedTxn;
  decodeAddress : string -> Completion DecodedAddress
}.

(** ** The Web3Auth provider *)

(** What [provider.request] may resolve to: the type is [unknown]. *)
Inductive JsUnknown : Type :=
| JsString (s : string)
| JsUndefined
| JsOtherValue.

Record IProvider : Type := { request_private_key : Completion JsUnknown }.

(** A provider whose [private_key] request resolves to the string [s]. *)
Definition hexProvider (s : string) : option IProvider :=
  Some {| request_private_key := Return (JsString s) |}.

(** ** algorandAdapter.ts *)

Record AlgorandAccountFromWeb3Auth : Type := {
  address : string;
  mnemonic : string;
  secretKey : bytes
}.

Definition DERIVE_PREFIX : string := "Failed to derive Algorand account from Web3Auth: ".
Definition SIGN_PREFIX : string := "Failed to sign transaction: ".

(** [privKey.startsWith('0x') ? privKey.slice(2) : privKey] *)
Definition cleanHexKey (privKey : string) : string :=
  if startsWith privKey "0x" then string_slice_from 2 privKey else privKey.

Section Adapter.
Context {sdk : Algosdk}.

(** The body of the [try] block of [getAlgorandAccount]. *)
Definition deriveFromProvider (provider : IProvider) : Completion AlgorandAccountFromWeb3Auth :=
  privKey <- request_private_key provider ;;
  match privKey with
  | JsString (String c s' as s) =>
      let privateKeyBytes := Buffer_from_hex (cleanHexKey s) in
      let ed25519SecretKey := slice 0 32 privateKeyBytes in
      m <- secretKeyToMnemonic ed25519SecretKey ;;
      accountFromMnemonic <- mnemonicToSecretKey m ;;
      Return {| address := addr accountFromMnemonic;
                mnemonic := m;
                secretKey := sk accountFromMnemonic |}
  | _ => Throw (JsError "Failed to retrieve private key from Web3Auth provider")
  end.

(** The [catch] block of [getAlgorandAccount]: an [Error] is replaced by a
    new [Error] that quotes its message, anything else is thrown again. *)
Definition rethrowDerive {A} (error : JsValue) : Completion A :=
  match error with
  | JsError message => Throw (JsError (DERIVE_PREFIX ++ message))
  | JsNonError _ => Throw error
  end.

Definition getAlgorandAccount (provider : option IProvider)
  : Completion AlgorandAccountFromWeb3Auth :=
  match provider with
  | None => Throw (JsError "Provider is required to derive Algorand account")
  | Some p => try_catch (deriveFromProvider p) rethrowDerive
  end.

(** The message put after [SIGN_PREFIX]:
    [error instanceof Error ? error.message : 'Unknown error']. *)
Definition causeMessage (error : JsValue) : string :=
  match error with
  | JsError message => message
  | JsNonError _ => "Unknown error"
  end.

(** The [for] loop of the signer, with the array [signedTxns] built so far. *)
Fixpoint signLoop (secretKey : bytes) (transactions : list bytes) (signedTxns : list bytes)
  : Completion (list bytes) :=
  match transactions with
  | [] => Return signedTxns
  | txn :: rest =>
      signedTxns' <-
        try_catch
          (signedTxn <- signTransaction txn secretKey ;;
           Return (signedTxns ++ [blob signedTxn])%list)
          (fun error => Throw (JsError (SIGN_PREFIX ++ causeMessage error))) ;;
      signLoop secretKey rest signedTxns'
  end.

Definition createAlgorandSigner (secretKey : bytes) (transactions : list bytes)
  : Completion (list bytes) :=
  signLoop secretKey transactions [].

(** The guard [!address || typeof address !== 'string'] is [address === ''] on
    a string. *)
Definition isValidAlgorandAddress (address : string) : Completion bool :=
  match address with
  | EmptyString => Return false
  | _ => try_catch (_ <- decodeAddress address ;; Return true) (fun _ => Return false)
  end.

Definition getPublicKeyFromSecretKey (secretKey : bytes) : Completion bytes :=
  if negb (List.length secretKey =? 64)%nat
  then Throw (JsError ("Invalid secret key length: expected 64 bytes, got "
                         ++ decimal (List.length secretKey)))
  else Return (skipn 32 secretKey).

(** ** web3authIntegration.ts *)

(** [decodedTxn.sig?.signers?.[0] ?? decodedTxn.sig?.signer] *)
Definition txnSigner (decodedTxn : DecodedSignedTxn) : option bytes :=
  match sig decodedTxn with
  | None => None
  | Some s =>
      match signers s with
      | Some (first :: _) => Some first
      | _ => signer s
      end
  end.

Definition verifyWeb3AuthSignature (signedTransaction : bytes)
    (account : AlgorandAccountFromWeb3Auth) : Completion bool :=
  try_catch
    (decodedTxn <- decodeSignedTransaction signedTransaction ;;
     match txnSigner decodedTxn with
     | None => Return false
     | Some signerKey =>
         decodedAddress <- decodeAddress (address account) ;;
         Return (Buffer_equals signerKey (publicKey decodedAddress))
     end)
    (fun _ => Return false).

End Adapter.

(** ** What the code relies on from algosdk

    Each law is a property of the library, not of this repository: the
    theorems below take the ones they need as hypotheses. *)

Section Laws.
Context (sdk : Algosdk).

(** [secretKeyToMnemonic] throws an [Error] on fewer than 32 bytes (algosdk
    keeps the first 32 bytes of its argument and then throws "Seed length must
    be 32" unless it has 32 bytes). *)
Definition short_seed_rejected : Prop :=
  forall seed : bytes, List.length seed < 32 ->
    exists msg, secretKeyToMnemonic seed = Throw (JsError msg).

(** A 32-byte seed has a mnemonic, and [mnemonicToSecretKey] expands that
    mnemonic to a secret key that starts with the seed. *)
Definition mnemonic_round_trip : Prop :=
  forall seed : bytes, List.length seed = 32 ->
    exists m a, secretKeyToMnemonic seed = Return m
             /\ mnemonicToSecretKey m = Return a
             /\ firstn 32 (sk a) = seed.

(** An account recovered from a mnemonic has a 64-byte secret key, and its
    address is the encoding of the last 32 bytes of that key. *)
Definition account_well_formed : Prop :=
  forall m a, mnemonicToSecretKey m = Return a ->
    List.length (sk a) = 64
    /\ decodeAddress (addr a) = Return {| publicKey := skipn 32 (sk a) |}.

(** In a decoded signed transaction [sig], when present, is the raw 64-byte
    signature: a [Uint8Array], which has no property [signers] and no
    property [signer] (algosdk: [sig?: Uint8Array]). *)
Definition decoded_sig_is_raw_signature : Prop :=
  forall b d s, decodeSignedTransaction b = Return d ->
    sig d = Some s -> signers s = None /\ signer s = None.

(** [decodeAddress] does not accept the empty string. *)
Definition empty_address_rejected : Prop :=
  forall d, decodeAddress "" <> Return d.

End Laws.

(** ** Hexadecimal strings *)

Definition hexDigit (n : N) : ascii :=
  ascii_of_N (if (n <? 10)%N then 48 + n else 87 + n).

(** [Buffer.from(b).toString('hex')] *)
Fixpoint toHex (b : bytes) : string :=
  match b with
  | [] => EmptyString
  | x :: rest =>
      String (hexDigit (Byte.to_N x / 16)) (String (hexDigit (Byte.to_N x mod 16)) (toHex rest))
  end.

Definition isHexDigit (c : ascii) : bool :=
  match hexCharValue c with Some _ => true | None => false end.

(** A string that hex-decodes without loss: an even number of characters,
    all of them hexadecimal digits. *)
Definition wellFormedHex (s : string) : bool :=
  Nat.even (String.length s) && forallb isHexDigit (list_ascii_of_string s).

(** The number of leading pairs of hexadecimal digits of a string. *)
Fixpoint hexPairs (s : string) : nat :=
  match s with
  | String c1 (String c2 rest) =>
      if isHexDigit c1 && isHexDigit c2 then S (hexPairs rest) else 0
  | _ => 0
  end.

(** ** A reference instance of the interface

    A small executable stand-in for algosdk, with the same shape of results
    and failures, on which the adapter can be run: the public key of a seed
    is the seed reversed, a mnemonic is the seed in hex, an address is the
    public key in hex, and a signed transaction is a tag byte, 32 bytes that
    stand for the signature and the transaction; decoded, its [sig] is bytes,
    with no [signers] and no [signer] property, as in algosdk. *)

Module RefSdk.

Definition publicKeyOfSeed (seed : bytes) : bytes := rev seed.

Definition secretKeyToMnemonic (secretKey : bytes) : Completion string :=
  let seed := firstn 32 secretKey in
  if (List.length seed =? 32)%nat then Return (toHex seed)
  else Throw (JsError "Seed length must be 32").

Definition mnemonicToSecretKey (m : string) : Completion Account :=
  let seed := Buffer_from_hex m in
  if (String.length m =? 64)%nat && (List.length seed =? 32)%nat
  then Return {| addr := toHex (publicKeyOfSeed seed);
                 sk := (seed ++ publicKeyOfSeed seed)%list |}
  else Throw (JsError "failed to decode mnemonic").

Definition decodeAddress (a : string) : Completion DecodedAddress :=
  let pk := Buffer_from_hex a in
  if (String.length a =? 64)%nat && (List.length pk =? 32)%nat
  then Return {| publicKey := pk |}
  else Throw (JsError "address seems to be malformed").

(** Signing rejects an empty transaction with an [Error], and one that
    starts with the byte [ff] with a thrown value that is not an [Error]. *)
Definition signTransaction (txn secretKey : bytes) : Completion SignedTxnResult :=
  if negb (List.length secretKey =? 64)%nat then Throw (JsError "bad secret key size")
  else
    match txn with
    | [] => Throw (JsError "malformed transaction")
    | x :: _ =>
        if Byte.eqb x xff then Throw (JsNonError "aborted")
        else Return {| txID := toHex txn;
                       blob := (x01 :: skipn 32 secretKey ++ txn)%list |}
    end.

(** Tag [01]: a signed transaction; tag [00]: a transaction without
    signature. *)
Definition decodeSignedTransaction (b : bytes) : Completion DecodedSignedTxn :=
  match b with
  | x :: rest =>
      if Byte.eqb x x01 then
        if (32 <=? List.length rest)%nat
        then Return {| sig := Some {| signers := None; signer := None |} |}
        else Throw (JsError "signed transaction is too short")
      else if Byte.eqb x x00 then Return {| sig := None |}
      else Throw (JsError "cannot decode signed transaction")
  | [] => Throw (JsError "cannot decode signed transaction")
  end.

Definition sdk : Algosdk :=
  Build_Algosdk secretKeyToMnemonic mnemonicToSecretKey signTransaction
    decodeSignedTransaction decodeAddress.

End RefSdk.

(** ** The claims that the code does not meet, as the spec states them *)

(** The error kinds of the spec's taxonomy. *)
Inductive ErrorKind : Type :=
| MissingProviderError
| DecodeError
| KeyLengthError
| DerivationError
| SigningError.

(** The source has a single class of errors, [Error], told apart by their
    messages only. This reads the spec's kinds onto the messages of the
    throw sites of [algorandAdapter.ts]: the two "no key material" sites,
    the byte-count check of [getPublicKeyFromSecretKey], the wrapper that
    [getAlgorandAccount] puts around a failure of a primitive, and the
    wrapper of the signer. *)
Definition spec_errorKind (e : JsValue) : option ErrorKind :=
  match e with
  | JsError message =>
      if (message =? "Provider is required to derive Algorand account")%string
         || (message =? DERIVE_PREFIX ++ "Failed to retrieve private key from Web3Auth provider")%string
      then Some MissingProviderError
      else if prefix "Invalid secret key length: " message then Some KeyLengthError
      else if prefix DERIVE_PREFIX message then Some DerivationError
      else if prefix SIGN_PREFIX message then Some SigningError
      else None
  | JsNonError _ => None
  end.

Section Claims.
Context (sdk : Algosdk).

(** Short key, as the spec has it: every input that decodes to fewer than 32
    bytes fails with a [KeyLengthError]. *)
Definition short_key_raises_KeyLengthError : Prop :=
  forall s : string,
    List.length (Buffer_from_hex (cleanHexKey s)) < 32 ->
    exists e, getAlgorandAccount (hexProvider s) = Throw e
           /\ spec_errorKind e = Some KeyLengthError.

(** Malformed hex, as the spec has it: every input with an odd number of
    characters or a character that is no hexadecimal digit fails (with
    whatever error). *)
Definition malformed_hex_rejected : Prop :=
  forall s : string,
    wellFormedHex (cleanHexKey s) = false ->
    exists e, getAlgorandAccount (hexProvider s) = Throw e.

(** The transaction at index [k] is the first of the batch whose signing
    fails, with the thrown value [cause]. *)
Definition firstFailureAt (secretKey : bytes) (transactions : list bytes)
    (k : nat) (cause : JsValue) : Prop :=
  (exists txn, nth_error transactions k = Some txn
            /\ signTransaction txn secretKey = Throw cause)
  /\ forall i txn, i < k -> nth_error transactions i = Some txn ->
       exists r, signTransaction txn secretKey = Return r.

(** Batch failure, as the spec has it: the error of a failed batch carries
    the index of the failing transaction, that is, the index can be read off
    the thrown value. *)
Definition signing_error_carries_index : Prop :=
  exists indexOf : JsValue -> nat,
    forall secretKey transactions k cause,
      firstFailureAt secretKey transactions k cause ->
      exists e, createAlgorandSigner secretKey transactions = Throw e
             /\ indexOf e = k.

End Claims.

(** ** Auxiliary notions used in the statements *)

Section Auxiliary.
Context {sdk : Algosdk}.

(** The account that [getAlgorandAccount] builds from a seed. *)
Definition accountOfSeed (seed : bytes) : Completion AlgorandAccountFromWeb3Auth :=
  m <- secretKeyToMnemonic seed ;;
  accountFromMnemonic <- mnemonicToSecretKey m ;;
  Return {| address := addr accountFromMnemonic;
            mnemonic := m;
            secretKey := sk accountFromMnemonic |}.

(** The signature of each transaction of a batch, one by one. *)
Definition signedOneByOne (secretKey : bytes) (transactions : list bytes)
    (rs : list SignedTxnResult) : Prop :=
  Forall2 (fun txn r => signTransaction txn secretKey = Return r) transactions rs.

End Auxiliary.

(** ** Concrete inputs *)

Module Inputs.

(** The seed 00 01 .. 1f in hex, its expanded secret key under the reference
    instance, and a few transactions. *)
Definition seedHex : string :=
  "000102030405060708090a0b0c0d0e0f101112131415161718191a1b1c1d1e1f".
Definition seed : bytes := Buffer_from_hex seedHex.
Definition secretKey0 : bytes := (seed ++ RefSdk.publicKeyOfSeed seed)%list.
Definition goodTxn : bytes := [x2a].
Definition otherTxn : bytes := [x2b; x00].
Definition badTxn : bytes := [].
Definition unsignedBlob : bytes := [x00; x2a].

End Inputs.

(** ** The private key as any JavaScript string

    A JavaScript string is a sequence of UTF-16 code units, and the provider
    may answer any string. The hex decoder of [Buffer.from] reads the low byte
    of each code unit; [startsWith] and [slice] work on the code units
    themselves. This is [getAlgorandAccount] on a provider whose
    [private_key] request resolves to such a string; on a string of
    characters below U+0100 it is [getAlgorandAccount] on [hexProvider]
    ([Utf16Facts.getAlgorandAccount_ofString]). *)

Module Utf16.

Definition jsString : Type := list N.

(** The code units of a string of characters below U+0100. *)
Definition ofString (s : string) : jsString := map N_of_ascii (list_ascii_of_string s).

(** The value of a code unit as a hexadecimal digit: that of its low byte. *)
Definition hexUnitValue (u : N) : option N := hexCharValue (ascii_of_N (u mod 256)).

(** [Buffer.from(privKey, 'hex')] *)
Fixpoint Buffer_from_hex (w : jsString) : bytes :=
  match w with
  | u1 :: u2 :: rest =>
      match hexUnitValue u1, hexUnitValue u2 with
      | Some a, Some b => byte_of_nibbles a b :: Buffer_from_hex rest
      | _, _ => []
      end
  | _ => []
  end.

(** [w.startsWith(p)] *)
Fixpoint startsWith (w p : jsString) : bool :=
  match p, w with
  | [], _ => true
  | x :: p', y :: w' => (x =? y)%N && startsWith w' p'
  | _ :: _, [] => false
  end.

(** [privKey.startsWith('0x') ? privKey.slice(2) : privKey] *)
Definition cleanHexKey (privKey : jsString) : jsString :=
  if startsWith privKey (ofString "0x") then skipn 2 privKey else privKey.

(** The code unit is one of the characters 0-9, a-f, A-F. *)
Definition isHexChar (u : N) : bool := (u <? 256)%N && isHexDigit (ascii_of_N u).

(** An even number of code units, all of them hexadecimal digits. *)
Definition wellFormedHex (w : jsString) : bool :=
  Nat.even (List.length w) && forallb isHexChar w.

Section Adapter.
Context {sdk : Algosdk}.

(** The body of the [try] block once the provider has answered [privKey]. *)
Definition deriveFromKey (privKey : jsString) : Completion AlgorandAccountFromWeb3Auth :=
  match privKey with
  | [] => Throw (JsError "Failed to retrieve private key from Web3Auth provider")
  | _ :: _ =>
      let privateKeyBytes := Buffer_from_hex (cleanHexKey privKey) in
      let ed25519SecretKey := slice 0 32 privateKeyBytes in
      m <- secretKeyToMnemonic ed25519SecretKey ;;
      accountFromMnemonic <- mnemonicToSecretKey m ;;
      Return {| address := addr accountFromMnemonic;
                mnemonic := m;
                secretKey := sk accountFromMnemonic |}
  end.

Definition getAlgorandAccount (privKey : jsString) : Completion AlgorandAccountFromWeb3Auth :=
  try_catch (deriveFromKey privKey) rethrowDerive.

End Adapter.

(** 64 times the character U+0132, which is no hexadecimal digit and whose
    low byte is that of the digit 2. *)
Definition sixtyFourLigatures : jsString := repeat 306%N 64.

End Utf16.

(** A second instance, for transactions signed by several keys: every blob
    decodes to a signers list made of its first two bytes, one key each, and a
    signer field made of its third byte. *)
Module MultisigSdk.

Definition decodeSignedTransaction (b : bytes) : Completion DecodedSignedTxn :=
  match b with
  | k1 :: k2 :: k3 :: _ =>
      Return {| sig := Some {| signers := Some [[k1]; [k2]]; signer := Some [k3] |} |}
  | _ => Throw (JsError "cannot decode signed transaction")
  end.

Definition decodeAddress (a : string) : Completion DecodedAddress :=
  match Buffer_from_hex a with
  | [k] => Return {| publicKey := [k] |}
  | _ => Throw (JsError "address seems to be malformed")
  end.

Definition sdk : Algosdk :=
  Build_Algosdk RefSdk.secretKeyToMnemonic RefSdk.mnemonicToSecretKey RefSdk.signTransaction
    decodeSignedTransaction decodeAddress.

End MultisigSdk.

(** ** web3authConfig.ts

    The module keeps one variable, [web3authInstance]; each function takes its
    value and returns its new value beside the outcome. A [Web3Auth] object is
    mutable: a value of type [Web3Auth] is the state of the object, and a
    method gives the state after the call. The Web3Auth packages are external:
    their constructors, methods and constants are the fields of the interface
    [Web3AuthSdk]. *)

Module Web3AuthConfig.

Record ChainConfig : Type := {
  chainNamespace : string;
  chainId : string;
  rpcTarget : string;
  displayName : string;
  blockExplorerUrl : string;
  ticker : string;
  tickerName : string
}.

Record UiConfig : Type := {
  uiAppName : string;
  themePrimary : string;
  mode : string;
  loginMethodsOrder : list string;
  defaultLanguage : string
}.

(** The argument of [new Web3Auth(...)]. *)
Record Web3AuthOptions (P : Type) : Type := {
  optClientId : string;
  optWeb3AuthNetwork : string;
  privateKeyProvider : P;
  uiConfig : UiConfig
}.

Arguments optClientId {P} _.
Arguments optWeb3AuthNetwork {P} _.
Arguments privateKeyProvider {P} _.
Arguments uiConfig {P} _.

Class Web3AuthSdk : Type := {
  CHAIN_NAMESPACES_OTHER : string;
  SAPPHIRE_DEVNET : string;
  CommonPrivateKeyProvider : Type;
  newCommonPrivateKeyProvider : ChainConfig -> Completion CommonPrivateKeyProvider;
  UserInfo : Type;
  Web3Auth : Type;
  newWeb3Auth : Web3AuthOptions CommonPrivateKeyProvider -> Completion Web3Auth;
  initModal : Web3Auth -> Web3Auth * option JsValue;
  getUserInfo : Web3Auth -> Web3Auth * Completion UserInfo;
  logout : Web3Auth -> Web3Auth * option JsValue;
  provider : Web3Auth -> option IProvider;
  status : Web3Auth -> string
}.

Record InitWeb3AuthOptions : Type := {
  clientId : string;
  appName : option string;
  web3AuthNetwork : option string
}.

Section Config.
Context {w3a : Web3AuthSdk}.

Definition algorandTestNet : ChainConfig := {|
  chainNamespace := CHAIN_NAMESPACES_OTHER;
  chainId := "0x1";
  rpcTarget := "https://testnet-api.algonode.cloud";
  displayName := "Algorand TestNet";
  blockExplorerUrl := "https://testnet.algoexplorer.io";
  ticker := "ALGO";
  tickerName := "Algorand"
|}.

(** The object [web3AuthConfig] built from the options and their defaults. *)
Definition web3AuthConfig (options : InitWeb3AuthOptions)
    (pkp : CommonPrivateKeyProvider) : Web3AuthOptions CommonPrivateKeyProvider := {|
  optClientId := clientId options;
  optWeb3AuthNetwork :=
    match web3AuthNetwork options with Some n => n | None => SAPPHIRE_DEVNET end;
  privateKeyProvider := pkp;
  uiConfig := {|
    uiAppName := match appName options with Some a => a | None => "Unified Algorand Wallet" end;
    themePrimary := "#000000";
    mode := "light";
    loginMethodsOrder := ["google"; "github"; "twitter"];
    defaultLanguage := "en"
  |}
|}.

Definition initWeb3Auth (options : InitWeb3AuthOptions) (web3authInstance : option Web3Auth)
  : Completion Web3Auth * option Web3Auth :=
  match clientId options with
  | EmptyString => (Throw (JsError "Web3Auth clientId is required"), web3authInstance)
  | _ =>
      match web3authInstance with
      | Some w => (Return w, web3authInstance)
      | None =>
          match newCommonPrivateKeyProvider algorandTestNet with
          | Throw e => (Throw e, None)
          | Return pkp =>
              match newWeb3Auth (web3AuthConfig options pkp) with
              | Throw e => (Throw e, None)
              | Return w =>
                  let (w', rejected) := initModal w in
                  match rejected with
                  | Some e => (Throw e, Some w')
                  | None => (Return w', Some w')
                  end
              end
          end
      end
  end.

Definition getWeb3AuthInstance (web3authInstance : option Web3Auth) : option Web3Auth :=
  web3authInstance.

(** [web3authInstance?.provider ?? null] *)
Definition getWeb3AuthProvider (web3authInstance : option Web3Auth) : option IProvider :=
  match web3authInstance with
  | Some w => provider w
  | None => None
  end.

(** [web3authInstance?.status === 'connected'] *)
Definition isWeb3AuthConnected (web3authInstance : option Web3Auth) : bool :=
  match web3authInstance with
  | Some w => (status w =? "connected")%string
  | None => false
  end.

Definition getWeb3AuthUserInfo (web3authInstance : option Web3Auth)
  : Completion (option UserInfo) * option Web3Auth :=
  match web3authInstance with
  | None => (Return None, web3authInstance)
  | Some w =>
      if negb (isWeb3AuthConnected web3authInstance) then (Return None, web3authInstance)
      else
        let (w', r) := getUserInfo w in
        (try_catch (userInfo <- r ;; Return (Some userInfo)) (fun _ => Return None), Some w')
  end.

Definition logoutFromWeb3Auth (web3authInstance : option Web3Auth)
  : Completion unit * option Web3Auth :=
  match web3authInstance with
  | None => (Return tt, web3authInstance)
  | Some w =>
      let (w', rejected) := logout w in
      (match rejected with Some e => Throw e | None => Return tt end, Some w')
  end.

End Config.

(** A small executable instance of the interface: an object records its
    client id and its status; the modal of the client "offline" cannot be
    initialised. *)
Module Ref.

Record Obj : Type := { objClient : string; objStatus : string }.

Definition sdk : Web3AuthSdk := {|
  CHAIN_NAMESPACES_OTHER := "other";
  SAPPHIRE_DEVNET := "sapphire_devnet";
  CommonPrivateKeyProvider := ChainConfig;
  newCommonPrivateKeyProvider := fun c => Return c;
  UserInfo := string;
  Web3Auth := Obj;
  newWeb3Auth := fun o => Return {| objClient := optClientId o; objStatus := "not_ready" |};
  initModal := fun w =>
    if (objClient w =? "offline")%string
    then ({| objClient := objClient w; objStatus := "errored" |},
          Some (JsError "network unreachable"))
    else ({| objClient := objClient w; objStatus := "ready" |}, None);
  getUserInfo := fun w => (w, Return "user@example.org");
  logout := fun w => ({| objClient := objClient w; objStatus := "ready" |}, None);
  provider := fun w =>
    if (objStatus w =? "connected")%string then hexProvider Inputs.seedHex else None;
  status := objStatus
|}.

End Ref.

End Web3AuthConfig.

(** ** The component [Web3AuthProvider]

    The eight [useState] cells are the fields of [State]; a handler is the
    function from the state it was called in to the state once it has run to
    its end, with no other handler running meanwhile: its [set...] calls
    applied in order. The outcome of each call a handler awaits on the
    Web3Auth object or on [web3authConfig.ts] is an argument of the handler.
    The cell [web3AuthInstance] holds the object as it was when stored; the
    handlers only test it against null. *)

Module Web3AuthProvider.

Section Component.
Context {sdk : Algosdk} {w3a : Web3AuthConfig.Web3AuthSdk}.

Record State : Type := {
  isInitialized : bool;
  isConnected : bool;
  isLoading : bool;
  error : option string;
  provider : option IProvider;
  web3AuthInstance : option Web3AuthConfig.Web3Auth;
  algorandAccount : option AlgorandAccountFromWeb3Auth;
  userInfo : option Web3AuthConfig.UserInfo
}.

Definition setIsInitialized (v : bool) (s : State) : State :=
  {| isInitialized := v; isConnected := isConnected s; isLoading := isLoading s;
     error := error s; provider := provider s; web3AuthInstance := web3AuthInstance s;
     algorandAccount := algorandAccount s; userInfo := userInfo s |}.

Definition setIsConnected (v : bool) (s : State) : State :=
  {| isInitialized := isInitialized s; isConnected := v; isLoading := isLoading s;
     error := error s; provider := provider s; web3AuthInstance := web3AuthInstance s;
     algorandAccount := algorandAccount s; userInfo := userInfo s |}.

Definition setIsLoading (v : bool) (s : State) : State :=
  {| isInitialized := isInitialized s; isConnected := isConnected s; isLoading := v;
     error := error s; provider := provider s; web3AuthInstance := web3AuthInstance s;
     algorandAccount := algorandAccount s; userInfo := userInfo s |}.

Definition setError (v : option string) (s : State) : State :=
  {| isInitialized := isInitialized s; isConnected := isConnected s; isLoading := isLoading s;
     error := v; provider := provider s; web3AuthInstance := web3AuthInstance s;
     algorandAccount := algorandAccount s; userInfo := userInfo s |}.

Definition setProvider (v : option IProvider) (s : State) : State :=
  {| isInitialized := isInitialized s; isConnected := isConnected s; isLoading := isLoading s;
     error := error s; provider := v; web3AuthInstance := web3AuthInstance s;
     algorandAccount := algorandAccount s; userInfo := userInfo s |}.

Definition setWeb3AuthInstance (v : option Web3AuthConfig.Web3Auth) (s : State) : State :=
  {| isInitialized := isInitialized s; isConnected := isConnected s; isLoading := isLoading s;
     error := error s; provider := provider s; web3AuthInstance := v;
     algorandAccount := algorandAccount s; userInfo := userInfo s |}.

Definition setAlgorandAccount (v : option AlgorandAccountFromWeb3Auth) (s : State) : State :=
  {| isInitialized := isInitialized s; isConnected := isConnected s; isLoading := isLoading s;
     error := error s; provider := provider s; web3AuthInstance := web3AuthInstance s;
     algorandAccount := v; userInfo := userInfo s |}.

Definition setUserInfo (v : option Web3AuthConfig.UserInfo) (s : State) : State :=
  {| isInitialized := isInitialized s; isConnected := isConnected s; isLoading := isLoading s;
     error := error s; provider := provider s; web3AuthInstance := web3AuthInstance s;
     algorandAccount := algorandAccount s; userInfo := v |}.

(** The state of the first render. *)
Definition initialState : State :=
  {| isInitialized := false; isConnected := false; isLoading := false;
     error := None; provider := None; web3AuthInstance := None;
     algorandAccount := None; userInfo := None |}.

(** [err instanceof Error ? err.message : fallback] *)
Definition messageOr (fallback : string) (err : JsValue) : string :=
  match err with
  | JsError message => message
  | JsNonError _ => fallback
  end.

(** [try { const info = await getWeb3AuthUserInfo(); if (info) setUserInfo(info) }
    catch { }] *)
Definition storeUserInfo (userInfoOutcome : Completion (option Web3AuthConfig.UserInfo))
    (s : State) : State :=
  match userInfoOutcome with
  | Return (Some info) => setUserInfo (Some info) s
  | _ => s
  end.

(** The effect run on mount; [initOutcome] is the outcome of
    [initWeb3Auth(options)], [userInfoOutcome] that of [getWeb3AuthUserInfo()]. *)
Definition initialize (initOutcome : Completion Web3AuthConfig.Web3Auth)
    (userInfoOutcome : Completion (option Web3AuthConfig.UserInfo)) (s : State) : State :=
  let s := setError None (setIsLoading true s) in
  let s :=
    match initOutcome with
    | Return web3auth =>
        let s := setWeb3AuthInstance (Some web3auth) s in
        let s :=
          match (Web3AuthConfig.status web3auth =? "connected")%string,
                Web3AuthConfig.provider web3auth with
          | true, Some p =>
              let s := setIsConnected true (setProvider (Some p) s) in
              let s :=
                match getAlgorandAccount (Some p) with
                | Return account => setAlgorandAccount (Some account) s
                | Throw _ =>
                    setError (Some "Failed to derive Algorand account. Please reconnect.") s
                end in
              storeUserInfo userInfoOutcome s
          | _, _ => s
          end in
        setIsInitialized true s
    | Throw err =>
        setIsInitialized true (setError (Some (messageOr "Failed to initialize Web3Auth" err)) s)
    end in
  setIsLoading false s.

(** [connectOutcome] is the outcome of [web3AuthInstance.connect()]. *)
Definition login (connectOutcome : Completion (option IProvider))
    (userInfoOutcome : Completion (option Web3AuthConfig.UserInfo)) (s : State) : State :=
  match web3AuthInstance s with
  | None => setError (Some "Web3Auth not initialized") s
  | Some _ =>
      if negb (isInitialized s)
      then setError (Some "Web3Auth is still initializing, please try again") s
      else
        let s := setError None (setIsLoading true s) in
        let connected :=
          web3authProvider <- connectOutcome ;;
          match web3authProvider with
          | None => Throw (JsError "Failed to connect Web3Auth provider")
          | Some p => Return p
          end in
        let s :=
          match connected with
          | Return p =>
              let s := setIsConnected true (setProvider (Some p) s) in
              let s :=
                match getAlgorandAccount (Some p) with
                | Return account => setAlgorandAccount (Some account) s
                | Throw err =>
                    setError (Some (messageOr "Failed to derive Algorand account" err)) s
                end in
              storeUserInfo userInfoOutcome s
          | Throw err =>
              setUserInfo None
                (setAlgorandAccount None
                   (setProvider None
                      (setIsConnected false
                         (setError (Some (messageOr "Login failed" err)) s))))
          end in
        setIsLoading false s
  end.

(** [logoutOutcome] is the outcome of [logoutFromWeb3Auth()]. *)
Definition logout (logoutOutcome : Completion unit) (s : State) : State :=
  let s := setError None (setIsLoading true s) in
  let s :=
    match logoutOutcome with
    | Return _ =>
        setUserInfo None (setAlgorandAccount None (setIsConnected false (setProvider None s)))
    | Throw err =>
        setUserInfo None
          (setAlgorandAccount None
             (setIsConnected false
                (setProvider None (setError (Some (messageOr "Logout failed" err)) s))))
    end in
  setIsLoading false s.

(** The mount effect with the functions of [web3authConfig.ts] it calls, on
    the module's variable. *)
Definition mount (options : Web3AuthConfig.InitWeb3AuthOptions)
    (web3authInstance : option Web3AuthConfig.Web3Auth) (s : State)
  : State * option Web3AuthConfig.Web3Auth :=
  let (initOutcome, m1) := Web3AuthConfig.initWeb3Auth options web3authInstance in
  match initOutcome with
  | Return web3auth =>
      match (Web3AuthConfig.status web3auth =? "connected")%string,
            Web3AuthConfig.provider web3auth with
      | true, Some _ =>
          let (userInfoOutcome, m2) := Web3AuthConfig.getWeb3AuthUserInfo m1 in
          (initialize initOutcome userInfoOutcome s, m2)
      | _, _ => (initialize initOutcome (Return None) s, m1)
      end
  | Throw _ => (initialize initOutcome (Return None) s, m1)
  end.

End Component.

End Web3AuthProvider.

(** ** Further concrete inputs *)

Module MoreInputs.
Import Web3AuthConfig.
Import Web3AuthProvider.

Definition someOptions (client : string) : InitWeb3AuthOptions :=
  {| clientId := client; appName := None; web3AuthNetwork := None |}.

Definition otherOptions : InitWeb3AuthOptions :=
  {| clientId := "another-client"; appName := Some "Another"; web3AuthNetwork := Some "mainnet" |}.

Definition readyObj : Ref.Obj := {| Ref.objClient := "client"; Ref.objStatus := "ready" |}.
Definition connectedObj : Ref.Obj :=
  {| Ref.objClient := "client"; Ref.objStatus := "connected" |}.
Definition erroredObj : Ref.Obj :=
  {| Ref.objClient := "offline"; Ref.objStatus := "errored" |}.

Definition readyState : State (w3a := Ref.sdk) :=
  setWeb3AuthInstance (w3a := Ref.sdk) (Some readyObj)
    (setIsInitialized true initialState).

End MoreInputs.

(** * Lemmas *)

(** ** Hex decoding *)

Lemma Buffer_from_hex_byte (x : byte) (rest : string) :
  Buffer_from_hex
    (String (hexDigit (Byte.to_N x / 16)) (String (hexDigit (Byte.to_N x mod 16)) rest))
  = x :: Buffer_from_hex rest.
Proof. destruct x; reflexivity. Qed.

Lemma Buffer_from_hex_toHex (b : bytes) : Buffer_from_hex (toHex b) = b.
Proof.
  induction b as [|x b IH]; [reflexivity|].
  cbn [toHex]. rewrite Buffer_from_hex_byte. now rewrite IH.
Qed.

Lemma length_toHex (b : bytes) : String.length (toHex b) = 2 * List.length b.
Proof. induction b as [|x b IH]; cbn [toHex String.length List.length]; lia. Qed.

Lemma length_Buffer_from_hex (s : string) :
  List.length (Buffer_from_hex s) = hexPairs s.
Proof.
  revert s. fix IH 1. intros [|c1 [|c2 rest]]; try reflexivity.
  cbn [Buffer_from_hex hexPairs]. unfold isHexDigit.
  destruct (hexCharValue c1), (hexCharValue c2); cbn; try reflexivity.
  now rewrite IH.
Qed.

(** ** The signer *)

Section SignerFacts.
Context {sdk : Algosdk}.
Variable secretKey : bytes.

Lemma signLoop_Return (transactions : list bytes) :
  forall signedTxns out,
    signLoop secretKey transactions signedTxns = Return out <->
    exists rs, signedOneByOne secretKey transactions rs /\ out = (signedTxns ++ map blob rs)%list.
Proof.
  induction transactions as [|txn rest IH]; intros acc out; cbn [signLoop].
  - split.
    + intros [= <-]. exists []. split; [constructor | now rewrite app_nil_r].
    + intros (rs & HF & ->). inversion HF; subst. cbn. now rewrite app_nil_r.
  - destruct (signTransaction txn secretKey) as [r|e] eqn:E; cbn [bind try_catch].
    + rewrite IH. split.
      * intros (rs & HF & ->). exists (r :: rs). split; [now constructor|].
        cbn [map]. now rewrite <- app_assoc.
      * intros (rs & HF & ->). inversion HF as [|? r' ? rs' Hr HF']; subst.
        rewrite E in Hr. injection Hr as <-. exists rs'. split; [assumption|].
        cbn [map]. now rewrite <- app_assoc.
    + split; [discriminate|].
      intros (rs & HF & _). inversion HF as [|? r' ? rs' Hr HF']; subst. congruence.
Qed.

Lemma signedOneByOne_nth (transactions : list bytes) (rs : list SignedTxnResult) :
  signedOneByOne secretKey transactions rs ->
  forall i txn, nth_error transactions i = Some txn ->
    exists r, signTransaction txn secretKey = Return r /\ nth_error rs i = Some r.
Proof.
  induction 1 as [|t r ts rs' Hr _ IH]; intros [|i] txn; cbn; try discriminate.
  - intros [= <-]. now exists r.
  - apply IH.
Qed.

Lemma signedOneByOne_nth_inv (transactions : list bytes) (rs : list SignedTxnResult) :
  signedOneByOne secretKey transactions rs ->
  forall i r, nth_error rs i = Some r ->
    exists txn, nth_error transactions i = Some txn /\ signTransaction txn secretKey = Return r.
Proof.
  induction 1 as [|t r0 ts rs' Hr _ IH]; intros [|i] r; cbn; try discriminate.
  - intros [= <-]. now exists t.
  - apply IH.
Qed.

Lemma signedOneByOne_total (transactions : list bytes) :
  (forall txn, In txn transactions -> exists r, signTransaction txn secretKey = Return r) ->
  exists rs, signedOneByOne secretKey transactions rs.
Proof.
  induction transactions as [|txn rest IH]; intros H.
  - exists []. constructor.
  - destruct (H txn (or_introl eq_refl)) as [r Hr].
    destruct IH as [rs Hrs]; [intros t Ht; apply H; now right|].
    exists (r :: rs). now constructor.
Qed.

Lemma signLoop_first_failure (transactions : list bytes) :
  forall signedTxns k cause,
    firstFailureAt sdk secretKey transactions k cause ->
    signLoop secretKey transactions signedTxns
    = Throw (JsError (SIGN_PREFIX ++ causeMessage cause)).
Proof.
  induction transactions as [|txn rest IH]; intros acc k cause [(t & Hk & Ht) Hbefore].
  - now destruct k.
  - cbn [signLoop]. destruct k as [|k].
    + cbn in Hk. injection Hk as ->. now rewrite Ht.
    + destruct (Hbefore 0 txn (Nat.lt_0_succ k) eq_refl) as [r Hr].
      rewrite Hr. cbn [bind try_catch]. apply (IH _ k). split.
      * now exists t.
      * intros i t' Hi Hn. apply (Hbefore (S i) t'); [lia | exact Hn].
Qed.

Lemma first_failure_exists (transactions : list bytes) :
  forall k txn e,
    nth_error transactions k = Some txn ->
    signTransaction txn secretKey = Throw e ->
    exists j cause, j <= k /\ firstFailureAt sdk secretKey transactions j cause.
Proof.
  induction transactions as [|t rest IH]; intros k txn e Hk He.
  - now destruct k.
  - destruct (signTransaction t secretKey) as [r|e0] eqn:E.
    + destruct k as [|k]; [cbn in Hk; congruence|].
      destruct (IH k txn e Hk He) as (j & cause & Hj & (t' & Hn & Ht') & Hbefore).
      exists (S j), cause. split; [lia|]. split.
      * now exists t'.
      * intros [|i] x Hi Hx.
        -- cbn in Hx. injection Hx as <-. now exists r.
        -- apply (Hbefore i x); [lia | exact Hx].
    + exists 0, e0. split; [lia|]. split.
      * now exists t.
      * intros i x Hi. lia.
Qed.

End SignerFacts.

(** ** Bytes and hex strings *)

Lemma Buffer_equals_eq (a b : bytes) : Buffer_equals a b = true <-> a = b.
Proof.
  revert b. induction a as [|x a IH]; intros [|y b]; cbn; try easy.
  rewrite andb_true_iff, IH. split.
  - intros [Hxy ->]. now rewrite (byte_dec_bl _ _ Hxy).
  - intros [= -> ->]. split; [now apply byte_dec_lb | reflexivity].
Qed.

Lemma hexPairs_prefix (n : nat) :
  forall s, n <= hexPairs s ->
    Buffer_from_hex (substring 0 (2 * n) s) = firstn n (Buffer_from_hex s).
Proof.
  induction n as [|n IH]; intros s Hn.
  - now destruct s.
  - replace (2 * S n) with (S (S (2 * n))) by lia.
    destruct s as [|c1 [|c2 rest]]; cbn [hexPairs] in Hn; try lia.
    cbn [substring Buffer_from_hex]. unfold isHexDigit in Hn.
    destruct (hexCharValue c1), (hexCharValue c2); cbn in Hn; try lia.
    cbn [firstn]. f_equal. apply IH. lia.
Qed.

Lemma cleanHexKey_hex (s : string) : 1 <= hexPairs s -> cleanHexKey s = s.
Proof.
  destruct s as [|c1 [|c2 rest]]; cbn [hexPairs]; try lia.
  unfold cleanHexKey, startsWith. cbn [prefix]. intros H.
  destruct (ascii_dec "0" c1) as [_|]; [|reflexivity].
  destruct (ascii_dec "x" c2) as [<-|]; [|reflexivity].
  rewrite andb_false_r in H. lia.
Qed.

Lemma hexPairs_substring (n : nat) :
  forall s, n <= hexPairs s -> hexPairs (substring 0 (2 * n) s) = n.
Proof.
  intros s Hn. rewrite <- length_Buffer_from_hex, hexPairs_prefix by assumption.
  rewrite length_firstn, length_Buffer_from_hex. lia.
Qed.

(** ** Account derivation *)

Section DeriveFacts.
Context {sdk : Algosdk}.

(** On a non-empty string the outcome is that of the two primitives on the
    first 32 decoded bytes, as many as there are. *)
Lemma getAlgorandAccount_hex (s : string) :
  s <> EmptyString ->
  getAlgorandAccount (hexProvider s)
  = try_catch (accountOfSeed (firstn 32 (Buffer_from_hex (cleanHexKey s)))) rethrowDerive.
Proof. destruct s; [contradiction | reflexivity]. Qed.

Lemma getAlgorandAccount_empty :
  getAlgorandAccount (hexProvider EmptyString)
  = Throw (JsError (DERIVE_PREFIX ++ "Failed to retrieve private key from Web3Auth provider")).
Proof. reflexivity. Qed.

(** Every account returned is the one [mnemonicToSecretKey] gave for the
    returned mnemonic. *)
Lemma getAlgorandAccount_Return (provider : option IProvider) (A : AlgorandAccountFromWeb3Auth) :
  getAlgorandAccount provider = Return A ->
  exists a, mnemonicToSecretKey (mnemonic A) = Return a
         /\ address A = addr a /\ secretKey A = sk a.
Proof.
  destruct provider as [[req]|]; [|discriminate].
  unfold getAlgorandAccount, deriveFromProvider. cbn [request_private_key].
  destruct req as [[[|c s]| |]|[msg|v]]; cbn; try discriminate.
  destruct (secretKeyToMnemonic _) as [m|[msg|v]]; cbn; try discriminate.
  destruct (mnemonicToSecretKey m) as [a|[msg|v]] eqn:E; cbn; try discriminate.
  intros [= <-]. now exists a.
Qed.

Lemma accountOfSeed_round_trip (seed : bytes) :
  mnemonic_round_trip sdk -> List.length seed = 32 ->
  exists A a, accountOfSeed seed = Return A
           /\ mnemonicToSecretKey (mnemonic A) = Return a
           /\ firstn 32 (sk a) = seed.
Proof.
  intros Hrt Hlen. destruct (Hrt seed Hlen) as (m & a & Hm & Ha & Hseed).
  unfold accountOfSeed. rewrite Hm. cbn [bind]. rewrite Ha. cbn [bind].
  eexists; exists a. split; [reflexivity|]. now split.
Qed.

Lemma accountOfSeed_short (seed : bytes) :
  short_seed_rejected sdk -> List.length seed < 32 ->
  exists msg, secretKeyToMnemonic seed = Throw (JsError msg)
           /\ try_catch (accountOfSeed seed) rethrowDerive
              = Throw (JsError (DERIVE_PREFIX ++ msg)).
Proof.
  intros Hshort Hlen. destruct (Hshort seed Hlen) as [msg Hmsg].
  exists msg. split; [assumption|]. unfold accountOfSeed. now rewrite Hmsg.
Qed.

End DeriveFacts.

(** ** The reference instance satisfies the laws *)

Module RefSdkFacts.

#[local] Opaque firstn skipn.

Lemma short_seed_rejected_ok : short_seed_rejected RefSdk.sdk.
Proof.
  intros seed Hlen. exists "Seed length must be 32".
  cbn. unfold RefSdk.secretKeyToMnemonic.
  rewrite length_firstn, Nat.min_r by lia.
  destruct (Nat.eqb_spec (List.length seed) 32); [lia | reflexivity].
Qed.

Lemma mnemonic_round_trip_ok : mnemonic_round_trip RefSdk.sdk.
Proof.
  intros seed Hlen. cbn.
  unfold RefSdk.secretKeyToMnemonic, RefSdk.mnemonicToSecretKey.
  rewrite firstn_all2 by lia. rewrite Hlen, Nat.eqb_refl.
  exists (toHex seed).
  exists {| addr := toHex (rev seed); sk := (seed ++ rev seed)%list |}.
  split; [reflexivity|].
  rewrite Buffer_from_hex_toHex, length_toHex, Hlen. split; [reflexivity|].
  change (firstn 32 (seed ++ rev seed) = seed).
  rewrite firstn_app, Hlen, Nat.sub_diag, firstn_all2 by lia.
  rewrite firstn_0. apply app_nil_r.
Qed.

Lemma account_well_formed_ok : account_well_formed RefSdk.sdk.
Proof.
  intros m a.
  change (@mnemonicToSecretKey RefSdk.sdk) with RefSdk.mnemonicToSecretKey.
  change (@decodeAddress RefSdk.sdk) with RefSdk.decodeAddress.
  unfold RefSdk.mnemonicToSecretKey, RefSdk.decodeAddress.
  destruct (String.length m =? 64)%nat; [|discriminate]. cbn [andb].
  destruct (Nat.eqb_spec (List.length (Buffer_from_hex m)) 32) as [Hlen|]; [|discriminate].
  intros [= <-]. simpl (sk _). simpl (addr _). unfold RefSdk.publicKeyOfSeed.
  rewrite length_app, length_rev, Hlen. split; [reflexivity|].
  rewrite skipn_app, Hlen, Nat.sub_diag, skipn_all2, skipn_0 by lia.
  rewrite Buffer_from_hex_toHex, length_toHex, length_rev, Hlen.
  reflexivity.
Qed.

Lemma decoded_sig_is_raw_signature_ok : decoded_sig_is_raw_signature RefSdk.sdk.
Proof.
  intros b d s.
  change (@decodeSignedTransaction RefSdk.sdk) with RefSdk.decodeSignedTransaction.
  unfold RefSdk.decodeSignedTransaction. destruct b as [|x rest]; [discriminate|].
  destruct (Byte.eqb x x01).
  - destruct (32 <=? List.length rest)%nat; [|discriminate].
    intros [= <-] [= <-]. now split.
  - destruct (Byte.eqb x x00); [|discriminate]. intros [= <-]. discriminate.
Qed.

Lemma empty_address_rejected_ok : empty_address_rejected RefSdk.sdk.
Proof. intros d. discriminate. Qed.

End RefSdkFacts.

(** ** Verification and validation *)

Section VerifyFacts.
Context {sdk : Algosdk}.

Lemma verify_true_iff (signedTransaction : bytes) (account : AlgorandAccountFromWeb3Auth) :
  verifyWeb3AuthSignature signedTransaction account = Return true <->
  exists d signerKey da,
    decodeSignedTransaction signedTransaction = Return d
    /\ txnSigner d = Some signerKey
    /\ decodeAddress (address account) = Return da
    /\ signerKey = publicKey da.
Proof.
  unfold verifyWeb3AuthSignature.
  destruct (decodeSignedTransaction signedTransaction) as [d|e]; cbn [bind try_catch].
  - destruct (txnSigner d) as [k|] eqn:Hk; cbn [bind try_catch].
    + destruct (decodeAddress (address account)) as [da|e]; cbn [bind try_catch].
      * split.
        -- intros [= H]. apply Buffer_equals_eq in H. exists d, k, da. auto.
        -- intros (d' & k' & da' & [= <-] & Hk' & [= <-] & ->).
           rewrite Hk in Hk'. injection Hk' as ->.
           f_equal. now apply Buffer_equals_eq.
      * split; [discriminate|]. intros (? & ? & ? & _ & _ & H & _). discriminate H.
    + split; [discriminate|]. intros (d' & ? & ? & [= <-] & H & _). congruence.
  - split; [discriminate|]. intros (? & ? & ? & H & _). discriminate H.
Qed.

(** [verifyWeb3AuthSignature] never throws. *)
Lemma verify_total (signedTransaction : bytes) (account : AlgorandAccountFromWeb3Auth) :
  exists b, verifyWeb3AuthSignature signedTransaction account = Return b.
Proof.
  unfold verifyWeb3AuthSignature.
  destruct (decodeSignedTransaction signedTransaction) as [d|e]; cbn [bind try_catch];
    [|now eexists].
  destruct (txnSigner d) as [k|]; cbn [bind try_catch]; [|now eexists].
  destruct (decodeAddress (address account)); cbn [bind try_catch]; now eexists.
Qed.

(** With the library's shape of a decoded signature no signer is ever found,
    and the answer is false whatever the transaction and the account. *)
Lemma verify_false_when_sig_is_raw (signedTransaction : bytes)
    (account : AlgorandAccountFromWeb3Auth) :
  decoded_sig_is_raw_signature sdk ->
  verifyWeb3AuthSignature signedTransaction account = Return false.
Proof.
  intros Hraw. unfold verifyWeb3AuthSignature.
  destruct (decodeSignedTransaction signedTransaction) as [d|e] eqn:Hd;
    cbn [bind try_catch]; [|reflexivity].
  assert (Hk : txnSigner d = None).
  { unfold txnSigner. destruct (sig d) as [s|] eqn:Hs; [|reflexivity].
    destruct (Hraw _ _ _ Hd Hs) as [-> ->]. reflexivity. }
  now rewrite Hk.
Qed.

(** The address and the secret key of a derived account agree. *)
Lemma derived_account_agreement (provider : option IProvider) (A : AlgorandAccountFromWeb3Auth) :
  account_well_formed sdk ->
  getAlgorandAccount provider = Return A ->
  List.length (secretKey A) = 64
  /\ decodeAddress (address A) = Return {| publicKey := skipn 32 (secretKey A) |}.
Proof.
  intros Hwf HA. destruct (getAlgorandAccount_Return _ _ HA) as (a & Ha & -> & ->).
  exact (Hwf _ _ Ha).
Qed.

Lemma slice_public_half (secretKey : bytes) :
  List.length secretKey = 64 -> slice 32 64 secretKey = skipn 32 secretKey.
Proof.
  intros Hlen. unfold slice. change (64 - 32) with 32.
  apply firstn_all2. rewrite length_skipn. lia.
Qed.

End VerifyFacts.

Lemma prefix_append (p s : string) : prefix p (p ++ s) = true.
Proof.
  induction p as [|a p IH]; cbn [append prefix]; [now destruct s|].
  destruct (ascii_dec a a); [exact IH | contradiction].
Qed.

Lemma derive_error_kind (msg : string) :
  spec_errorKind (JsError (DERIVE_PREFIX ++ msg)) = Some MissingProviderError
  \/ spec_errorKind (JsError (DERIVE_PREFIX ++ msg)) = Some DerivationError.
Proof.
  unfold spec_errorKind.
  destruct (_ || _); [now left | right].
  rewrite (prefix_append DERIVE_PREFIX msg). reflexivity.
Qed.

(** ** The key as any JavaScript string *)

Module Utf16Facts.

Lemma hexUnitValue_ofAscii (c : ascii) : Utf16.hexUnitValue (N_of_ascii c) = hexCharValue c.
Proof. destruct c as [[] [] [] [] [] [] [] []]; reflexivity. Qed.

Lemma Buffer_from_hex_ofString :
  forall s, Utf16.Buffer_from_hex (Utf16.ofString s) = Buffer_from_hex s.
Proof.
  fix IH 1. intros [|c1 [|c2 rest]]; try reflexivity.
  change (Utf16.ofString (String c1 (String c2 rest)))
    with (N_of_ascii c1 :: N_of_ascii c2 :: Utf16.ofString rest).
  cbn [Utf16.Buffer_from_hex Buffer_from_hex]. rewrite !hexUnitValue_ofAscii.
  destruct (hexCharValue c1), (hexCharValue c2); try reflexivity.
  now rewrite IH.
Qed.

Lemma N_of_ascii_eqb (a b : ascii) :
  (N_of_ascii a =? N_of_ascii b)%N = if ascii_dec a b then true else false.
Proof.
  destruct (ascii_dec a b) as [->|Hne]; [apply N.eqb_refl|].
  apply N.eqb_neq. intros E. apply Hne.
  now rewrite <- (ascii_N_embedding a), <- (ascii_N_embedding b), E.
Qed.

Lemma startsWith_ofString (p : string) :
  forall s, Utf16.startsWith (Utf16.ofString s) (Utf16.ofString p) = startsWith s p.
Proof.
  unfold startsWith. induction p as [|a p IH]; intros s; [now destruct s|].
  destruct s as [|b s]; [reflexivity|].
  change (Utf16.ofString (String a p)) with (N_of_ascii a :: Utf16.ofString p).
  change (Utf16.ofString (String b s)) with (N_of_ascii b :: Utf16.ofString s).
  cbn [Utf16.startsWith prefix]. rewrite N_of_ascii_eqb, IH.
  now destruct (ascii_dec a b).
Qed.

Lemma cleanHexKey_ofString (s : string) :
  Utf16.cleanHexKey (Utf16.ofString s) = Utf16.ofString (cleanHexKey s).
Proof.
  unfold Utf16.cleanHexKey, cleanHexKey. rewrite startsWith_ofString.
  destruct (startsWith s "0x"); [|reflexivity]. now destruct s as [|c1 [|c2 rest]].
Qed.

Section Adapter.
Context {sdk : Algosdk}.

(** On a string of characters below U+0100 the two readings of
    [getAlgorandAccount] are one. *)
Lemma getAlgorandAccount_ofString (s : string) :
  Utf16.getAlgorandAccount (Utf16.ofString s) = getAlgorandAccount (hexProvider s).
Proof.
  destruct s as [|c s]; [reflexivity|].
  rewrite getAlgorandAccount_hex by discriminate.
  unfold Utf16.getAlgorandAccount, Utf16.deriveFromKey.
  change (Utf16.ofString (String c s)) with (N_of_ascii c :: Utf16.ofString s) at 1.
  cbv iota. change (N_of_ascii c :: Utf16.ofString s) with (Utf16.ofString (String c s)).
  now rewrite cleanHexKey_ofString, Buffer_from_hex_ofString.
Qed.

Lemma getAlgorandAccount_key (privKey : Utf16.jsString) :
  privKey <> [] ->
  Utf16.getAlgorandAccount privKey
  = try_catch
      (accountOfSeed (firstn 32 (Utf16.Buffer_from_hex (Utf16.cleanHexKey privKey))))
      rethrowDerive.
Proof. destruct privKey; [contradiction | reflexivity]. Qed.

End Adapter.

End Utf16Facts.

(** Whatever the library and the provider do, the value thrown by
    [getAlgorandAccount] is never of the key-length kind: the adapter has no
    byte-count check of its own. *)
Lemma getAlgorandAccount_error_kind {sdk : Algosdk}
    (provider : option IProvider) (e : JsValue) :
  getAlgorandAccount provider = Throw e -> spec_errorKind e <> Some KeyLengthError.
Proof.
  destruct provider as [p|]; cbn [getAlgorandAccount].
  - destruct (deriveFromProvider p) as [A|[msg|v]]; cbn [try_catch rethrowDerive];
      try discriminate; intros He Hk.
    + assert (E : e = JsError (DERIVE_PREFIX ++ msg)) by congruence. subst e.
      destruct (derive_error_kind msg) as [H | H]; rewrite H in Hk; discriminate Hk.
    + assert (E : e = JsNonError v) by congruence. subst e. discriminate Hk.
  - intros [= <-]. discriminate.
Qed.

(** * The claims *)

Section ClaimTheorems.
Context {sdk : Algosdk}.

(** C1, which the code breaks: the claim has [verifyWeb3AuthSignature] answer
    true for a transaction that the account signed itself. The code looks for
    the signer in [sig.signers] and [sig.signer], and the library's [sig] is
    the raw signature, which has neither: for every account returned by
    [getAlgorandAccount] and every transaction signed with its secret key by
    the signer of [createAlgorandSigner], the answer is false. *)
Theorem verify_rejects_own_signature :
  decoded_sig_is_raw_signature sdk ->
  forall provider A transactions out i signedTransaction,
    getAlgorandAccount provider = Return A ->
    createAlgorandSigner (secretKey A) transactions = Return out ->
    nth_error out i = Some signedTransaction ->
    verifyWeb3AuthSignature signedTransaction A = Return false.
Proof.
  intros Hraw provider A transactions out i st _ _ _.
  now apply verify_false_when_sig_is_raw.
Qed.

(** C2, as amended: on an input that decodes to fewer than 32 bytes the adapter
    checks no length and pads nothing. The empty string fails with the
    "no private key" error; any other such input reaches
    [secretKeyToMnemonic] with the decoded bytes as they are and, that primitive
    rejecting a short seed, fails with the generic derivation error that
    quotes the primitive's message. *)
Theorem short_key_fails_in_mnemonic_primitive :
  short_seed_rejected sdk ->
  forall s : string,
    List.length (Buffer_from_hex (cleanHexKey s)) < 32 ->
    (s = EmptyString
     /\ getAlgorandAccount (hexProvider s)
        = Throw (JsError (DERIVE_PREFIX
                            ++ "Failed to retrieve private key from Web3Auth provider")))
    \/ (s <> EmptyString
        /\ exists msg,
             secretKeyToMnemonic (Buffer_from_hex (cleanHexKey s)) = Throw (JsError msg)
             /\ getAlgorandAccount (hexProvider s) = Throw (JsError (DERIVE_PREFIX ++ msg))).
Proof.
  intros Hshort s Hlen. destruct s as [|c s]; [left; now split | right].
  split; [discriminate|].
  rewrite getAlgorandAccount_hex by discriminate.
  rewrite firstn_all2 by lia.
  now apply accountOfSeed_short.
Qed.

(** C3, as amended: on a non-empty key string that, after the optional 0x
    prefix, has an odd number of characters or a character that is no
    hexadecimal digit, the hex-decoding step does not fail.
    [getAlgorandAccount] succeeds when [Buffer.from] yields at least 32 bytes,
    and fails only when it yields fewer: then in the mnemonic primitive, with
    the generic derivation error that quotes the primitive's message. *)
Theorem malformed_hex_fails_only_when_short :
  short_seed_rejected sdk ->
  mnemonic_round_trip sdk ->
  forall privKey : Utf16.jsString,
    privKey <> [] ->
    Utf16.wellFormedHex (Utf16.cleanHexKey privKey) = false ->
    let privateKeyBytes := Utf16.Buffer_from_hex (Utf16.cleanHexKey privKey) in
    (32 <= List.length privateKeyBytes ->
     exists A, Utf16.getAlgorandAccount privKey = Return A)
    /\ (List.length privateKeyBytes < 32 ->
        exists msg,
          secretKeyToMnemonic privateKeyBytes = Throw (JsError msg)
          /\ Utf16.getAlgorandAccount privKey = Throw (JsError (DERIVE_PREFIX ++ msg))).
Proof.
  intros Hshort Hrt privKey Hne _ privateKeyBytes.
  rewrite Utf16Facts.getAlgorandAccount_key by assumption.
  fold privateKeyBytes. split; intros Hn.
  - destruct (accountOfSeed_round_trip (firstn 32 privateKeyBytes) Hrt)
      as (A & a & HA & _); [rewrite length_firstn; lia|].
    exists A. now rewrite HA.
  - rewrite firstn_all2 by lia. now apply accountOfSeed_short.
Qed.

(** C4, as amended: when the signing of some transaction of a batch fails, the
    signer throws, returning no output sequence; the thrown value is an
    [Error] whose message is "Failed to sign transaction: " followed by the
    message of the cause of the first failing transaction ("Unknown error"
    when that cause is no [Error]). It carries no index. *)
Theorem failed_batch_throws_first_cause (secretKey : bytes) (transactions : list bytes) :
  forall k txn e,
    nth_error transactions k = Some txn ->
    signTransaction txn secretKey = Throw e ->
    exists j cause,
      j <= k
      /\ firstFailureAt sdk secretKey transactions j cause
      /\ createAlgorandSigner secretKey transactions
         = Throw (JsError (SIGN_PREFIX ++ causeMessage cause)).
Proof.
  intros k txn e Hk He.
  destruct (first_failure_exists secretKey transactions k txn e Hk He)
    as (j & cause & Hj & Hfirst).
  exists j, cause. split; [assumption|]. split; [assumption|].
  now apply (signLoop_first_failure secretKey transactions [] j).
Qed.

(** C5: every account returned by [getAlgorandAccount] has a 64-byte secret
    key, [getPublicKeyFromSecretKey] returns bytes 32 to 64 of it, and decoding
    the account's address yields those same bytes; this uses the library's
    contract on accounts recovered from a mnemonic. *)
Theorem derived_account_invariants :
  account_well_formed sdk ->
  forall provider A,
    getAlgorandAccount provider = Return A ->
    List.length (secretKey A) = 64
    /\ getPublicKeyFromSecretKey (secretKey A) = Return (slice 32 64 (secretKey A))
    /\ decodeAddress (address A) = Return {| publicKey := slice 32 64 (secretKey A) |}.
Proof.
  intros Hwf provider A HA.
  destruct (derived_account_agreement _ _ Hwf HA) as [Hlen Haddr].
  rewrite slice_public_half by assumption.
  split; [assumption|]. split; [|assumption].
  unfold getPublicKeyFromSecretKey. now rewrite Hlen.
Qed.

(** C6: for a 32-byte seed given in hex, with or without the 0x prefix,
    [getAlgorandAccount] succeeds and the mnemonic it returns decodes through
    [mnemonicToSecretKey] to a secret key whose first 32 bytes are the seed. *)
Theorem derived_mnemonic_round_trip :
  mnemonic_round_trip sdk ->
  forall (seed : bytes) (s : string),
    List.length seed = 32 ->
    Buffer_from_hex (cleanHexKey s) = seed ->
    exists A a,
      getAlgorandAccount (hexProvider s) = Return A
      /\ mnemonicToSecretKey (mnemonic A) = Return a
      /\ firstn 32 (sk a) = seed.
Proof.
  intros Hrt seed s Hlen Hs.
  assert (Hne : s <> EmptyString) by (intros ->; now subst seed).
  rewrite getAlgorandAccount_hex by assumption.
  rewrite Hs, firstn_all2 by lia.
  destruct (accountOfSeed_round_trip seed Hrt Hlen) as (A & a & HA & Ha & Hseed).
  exists A, a. now rewrite HA.
Qed.

(** C7: when the signing of every transaction of the input succeeds, the
    signer returns a sequence of the same length whose i-th element is the
    signed blob of the i-th input transaction. *)
Theorem signer_output_mirrors_input (secretKey : bytes) (transactions : list bytes) :
  (forall txn, In txn transactions -> exists r, signTransaction txn secretKey = Return r) ->
  exists out,
    createAlgorandSigner secretKey transactions = Return out
    /\ List.length out = List.length transactions
    /\ forall i txn, nth_error transactions i = Some txn ->
         exists r, signTransaction txn secretKey = Return r
                /\ nth_error out i = Some (blob r).
Proof.
  intros Hall. destruct (signedOneByOne_total secretKey transactions Hall) as [rs Hrs].
  exists (map blob rs). split; [|split].
  - apply signLoop_Return. now exists rs.
  - rewrite length_map. symmetry. exact (Forall2_length Hrs).
  - intros i txn Hi.
    destruct (signedOneByOne_nth secretKey _ _ Hrs i txn Hi) as (r & Hr & Hn).
    exists r. split; [assumption|]. now rewrite nth_error_map, Hn.
Qed.

(** C8: [isValidAlgorandAddress] never throws, and returns true exactly when
    [decodeAddress] accepts the address; the empty string is answered false
    without a call, in agreement with a library that rejects it. *)
Theorem isValidAlgorandAddress_iff_decodes :
  empty_address_rejected sdk ->
  forall address : string,
    exists b, isValidAlgorandAddress address = Return b
           /\ (b = true <-> exists d, decodeAddress address = Return d).
Proof.
  intros Hempty [|c s].
  - exists false. split; [reflexivity|]. split; [discriminate|].
    intros [d Hd]. now destruct (Hempty d).
  - unfold isValidAlgorandAddress.
    destruct (decodeAddress (String c s)) as [d|e]; cbn [bind try_catch].
    + exists true. split; [reflexivity|]. split; [now exists d | reflexivity].
    + exists false. split; [reflexivity|]. split; [discriminate|]. now intros [d Hd].
Qed.

(** C9: on an input that decodes to more than 32 bytes, [getAlgorandAccount]
    uses the first 32 bytes only: its outcome is the outcome on the first 64
    hexadecimal characters alone, and it succeeds. *)
Theorem long_key_is_truncated :
  mnemonic_round_trip sdk ->
  forall s : string,
    32 < List.length (Buffer_from_hex (cleanHexKey s)) ->
    getAlgorandAccount (hexProvider s)
    = getAlgorandAccount (hexProvider (substring 0 64 (cleanHexKey s)))
    /\ exists A, getAlgorandAccount (hexProvider s) = Return A.
Proof.
  intros Hrt s Hlen.
  assert (Hne : s <> EmptyString) by (intros ->; cbn in Hlen; lia).
  rewrite length_Buffer_from_hex in Hlen.
  assert (H64 : hexPairs (substring 0 (2 * 32) (cleanHexKey s)) = 32)
    by (apply hexPairs_substring; lia).
  change (2 * 32) with 64 in H64.
  assert (Hne' : substring 0 64 (cleanHexKey s) <> EmptyString)
    by (intros E; rewrite E in H64; discriminate).
  rewrite !getAlgorandAccount_hex by assumption.
  rewrite (cleanHexKey_hex (substring 0 64 (cleanHexKey s))) by lia.
  pose proof (hexPairs_prefix 32 (cleanHexKey s)) as Hp.
  change (2 * 32) with 64 in Hp. rewrite Hp by lia.
  rewrite firstn_firstn. change (Nat.min 32 32) with 32.
  split; [reflexivity|].
  destruct (accountOfSeed_round_trip (firstn 32 (Buffer_from_hex (cleanHexKey s))) Hrt)
    as (A & a & HA & _).
  - rewrite length_firstn, length_Buffer_from_hex. lia.
  - exists A. now rewrite HA.
Qed.

(** C10: a signed transaction that decodes but has no signer, neither a signer
    field nor a first element of a signers list, is answered false, without
    throwing, whatever the account. *)
Theorem verify_false_without_signer
    (signedTransaction : bytes) (account : AlgorandAccountFromWeb3Auth)
    (d : DecodedSignedTxn) :
  decodeSignedTransaction signedTransaction = Return d ->
  (sig d = None
   \/ exists s, sig d = Some s
             /\ signer s = None
             /\ (signers s = None \/ signers s = Some [])) ->
  verifyWeb3AuthSignature signedTransaction account = Return false.
Proof.
  intros Hd Hnone. unfold verifyWeb3AuthSignature. rewrite Hd. cbn [bind try_catch].
  assert (Hk : txnSigner d = None).
  { unfold txnSigner. destruct Hnone as [-> | (s & -> & Hs & [-> | ->])]; auto. }
  now rewrite Hk.
Qed.

End ClaimTheorems.

(** * The adapter on the reference instance *)

Module Examples.
Import Inputs.

#[local] Existing Instance RefSdk.sdk.

Example short_key_abcd :
  getAlgorandAccount (hexProvider "abcd")
  = Throw (JsError "Failed to derive Algorand account from Web3Auth: Seed length must be 32").
Proof. reflexivity. Qed.

Example trailing_garbage_accepted :
  getAlgorandAccount (hexProvider (seedHex ++ "z")) = getAlgorandAccount (hexProvider seedHex)
  /\ exists A, getAlgorandAccount (hexProvider seedHex) = Return A.
Proof. split; [reflexivity | eexists; reflexivity]. Qed.

Example same_error_at_two_indices :
  createAlgorandSigner secretKey0 [badTxn] = Throw (JsError "Failed to sign transaction: malformed transaction")
  /\ createAlgorandSigner secretKey0 [goodTxn; badTxn]
     = Throw (JsError "Failed to sign transaction: malformed transaction").
Proof. split; reflexivity. Qed.

(** C2, as the spec states it, fails: the input "abcd" decodes to 2 bytes and
    the error thrown is the generic derivation error around the primitive's
    "Seed length must be 32", not an error of the key-length kind. *)
Lemma short_key_is_not_KeyLengthError : ~ short_key_raises_KeyLengthError RefSdk.sdk.
Proof.
  intros H. destruct (H "abcd") as (e & He & Hkind).
  - vm_compute. lia.
  - exact (getAlgorandAccount_error_kind _ _ He Hkind).
Qed.

(** C3, as the spec states it, fails: 64 hexadecimal digits followed by "z"
    have odd length and a character that is no hexadecimal digit, and the
    derivation succeeds on them. *)
Lemma malformed_hex_is_accepted : ~ malformed_hex_rejected RefSdk.sdk.
Proof.
  intros H. destruct (H (seedHex ++ "z") eq_refl) as [e He].
  destruct trailing_garbage_accepted as [E [A HA]].
  rewrite E, HA in He. discriminate He.
Qed.

(** C4, as the spec states it, fails: a batch failing at index 0 and a batch
    failing at index 1 throw the same value, so no index can be read off
    it. *)
Lemma signing_error_has_no_index : ~ signing_error_carries_index RefSdk.sdk.
Proof.
  intros [indexOf H].
  destruct same_error_at_two_indices as [E0 E1].
  destruct (H secretKey0 [badTxn] 0 (JsError "malformed transaction")) as (e0 & He0 & Hi0).
  { split; [now exists badTxn | intros i txn Hi; lia]. }
  destruct (H secretKey0 [goodTxn; badTxn] 1 (JsError "malformed transaction"))
    as (e1 & He1 & Hi1).
  { split; [now exists badTxn|]. intros [|i] txn Hi; [|lia].
    intros [= <-]. eexists. reflexivity. }
  rewrite E0 in He0. rewrite E1 in He1.
  injection He0 as <-. injection He1 as <-. congruence.
Qed.

(** ** The theorems at concrete inputs *)

Lemma own_signature_witness :
  decoded_sig_is_raw_signature RefSdk.sdk
  /\ exists A signedTransaction,
       getAlgorandAccount (hexProvider ("0x" ++ seedHex)) = Return A
       /\ createAlgorandSigner (secretKey A) [goodTxn] = Return [signedTransaction]
       /\ verifyWeb3AuthSignature signedTransaction A = Return false.
Proof.
  split; [exact RefSdkFacts.decoded_sig_is_raw_signature_ok|].
  eexists. eexists. split; [reflexivity|]. split; [reflexivity|].
  refine (verify_rejects_own_signature RefSdkFacts.decoded_sig_is_raw_signature_ok
            (hexProvider ("0x" ++ seedHex)) _ [goodTxn] _ 0 _ _ _ _); reflexivity.
Defined.

Lemma short_key_witness :
  short_seed_rejected RefSdk.sdk
  /\ List.length (Buffer_from_hex (cleanHexKey "abcd")) < 32
  /\ exists msg,
       secretKeyToMnemonic (Buffer_from_hex (cleanHexKey "abcd")) = Throw (JsError msg)
       /\ getAlgorandAccount (hexProvider "abcd") = Throw (JsError (DERIVE_PREFIX ++ msg)).
Proof.
  assert (Hlen : List.length (Buffer_from_hex (cleanHexKey "abcd")) < 32)
    by (vm_compute; lia).
  split; [exact RefSdkFacts.short_seed_rejected_ok|]. split; [exact Hlen|].
  destruct (short_key_fails_in_mnemonic_primitive RefSdkFacts.short_seed_rejected_ok "abcd" Hlen)
    as [[E _] | [_ H]]; [discriminate E | exact H].
Defined.

Lemma malformed_hex_witness :
  short_seed_rejected RefSdk.sdk /\ mnemonic_round_trip RefSdk.sdk
  /\ Utf16.sixtyFourLigatures <> []
  /\ Utf16.wellFormedHex (Utf16.cleanHexKey Utf16.sixtyFourLigatures) = false
  /\ 32 <= List.length (Utf16.Buffer_from_hex (Utf16.cleanHexKey Utf16.sixtyFourLigatures))
  /\ exists A, Utf16.getAlgorandAccount Utf16.sixtyFourLigatures = Return A.
Proof.
  assert (Hne : Utf16.sixtyFourLigatures <> []) by discriminate.
  assert (Hn : 32 <= List.length
                       (Utf16.Buffer_from_hex (Utf16.cleanHexKey Utf16.sixtyFourLigatures)))
    by (vm_compute; lia).
  split; [exact RefSdkFacts.short_seed_rejected_ok|].
  split; [exact RefSdkFacts.mnemonic_round_trip_ok|].
  split; [exact Hne|]. split; [reflexivity|]. split; [exact Hn|].
  exact (proj1 (malformed_hex_fails_only_when_short RefSdkFacts.short_seed_rejected_ok
                  RefSdkFacts.mnemonic_round_trip_ok Utf16.sixtyFourLigatures Hne eq_refl) Hn).
Defined.

Lemma failed_batch_witness :
  nth_error [goodTxn; badTxn; otherTxn] 1 = Some badTxn
  /\ signTransaction badTxn secretKey0 = Throw (JsError "malformed transaction")
  /\ exists j cause,
       j <= 1
       /\ firstFailureAt RefSdk.sdk secretKey0 [goodTxn; badTxn; otherTxn] j cause
       /\ createAlgorandSigner secretKey0 [goodTxn; badTxn; otherTxn]
          = Throw (JsError (SIGN_PREFIX ++ causeMessage cause)).
Proof.
  split; [reflexivity|]. split; [reflexivity|].
  exact (failed_batch_throws_first_cause secretKey0 [goodTxn; badTxn; otherTxn]
           1 badTxn (JsError "malformed transaction") eq_refl eq_refl).
Defined.

Lemma derived_account_witness :
  account_well_formed RefSdk.sdk
  /\ exists A,
       getAlgorandAccount (hexProvider ("0x" ++ seedHex)) = Return A
       /\ List.length (secretKey A) = 64
       /\ getPublicKeyFromSecretKey (secretKey A) = Return (slice 32 64 (secretKey A))
       /\ decodeAddress (address A) = Return {| publicKey := slice 32 64 (secretKey A) |}.
Proof.
  split; [exact RefSdkFacts.account_well_formed_ok|].
  eexists. split; [reflexivity|].
  exact (derived_account_invariants RefSdkFacts.account_well_formed_ok
           (hexProvider ("0x" ++ seedHex)) _ eq_refl).
Defined.

Lemma round_trip_witness :
  mnemonic_round_trip RefSdk.sdk
  /\ List.length seed = 32
  /\ Buffer_from_hex (cleanHexKey ("0x" ++ seedHex)) = seed
  /\ exists A a,
       getAlgorandAccount (hexProvider ("0x" ++ seedHex)) = Return A
       /\ mnemonicToSecretKey (mnemonic A) = Return a
       /\ firstn 32 (sk a) = seed.
Proof.
  split; [exact RefSdkFacts.mnemonic_round_trip_ok|].
  split; [reflexivity|]. split; [reflexivity|].
  exact (derived_mnemonic_round_trip RefSdkFacts.mnemonic_round_trip_ok
           seed ("0x" ++ seedHex) eq_refl eq_refl).
Defined.

Lemma signer_order_witness :
  (forall txn, In txn [goodTxn; otherTxn] ->
     exists r, signTransaction txn secretKey0 = Return r)
  /\ exists out,
       createAlgorandSigner secretKey0 [goodTxn; otherTxn] = Return out
       /\ List.length out = 2
       /\ forall i txn, nth_error [goodTxn; otherTxn] i = Some txn ->
            exists r, signTransaction txn secretKey0 = Return r
                   /\ nth_error out i = Some (blob r).
Proof.
  assert (Hall : forall txn, In txn [goodTxn; otherTxn] ->
                   exists r, signTransaction txn secretKey0 = Return r).
  { intros txn [<- | [<- | []]]; eexists; reflexivity. }
  split; [exact Hall|].
  exact (signer_output_mirrors_input secretKey0 [goodTxn; otherTxn] Hall).
Defined.

Lemma validator_witness :
  empty_address_rejected RefSdk.sdk
  /\ exists b, isValidAlgorandAddress "not an address" = Return b
            /\ (b = true <-> exists d, decodeAddress "not an address" = Return d).
Proof.
  split; [exact RefSdkFacts.empty_address_rejected_ok|].
  exact (isValidAlgorandAddress_iff_decodes RefSdkFacts.empty_address_rejected_ok "not an address").
Defined.

Lemma long_key_witness :
  mnemonic_round_trip RefSdk.sdk
  /\ 32 < List.length (Buffer_from_hex (cleanHexKey ("0x" ++ seedHex ++ "ffee")))
  /\ getAlgorandAccount (hexProvider ("0x" ++ seedHex ++ "ffee"))
     = getAlgorandAccount (hexProvider (substring 0 64 (cleanHexKey ("0x" ++ seedHex ++ "ffee"))))
  /\ exists A, getAlgorandAccount (hexProvider ("0x" ++ seedHex ++ "ffee")) = Return A.
Proof.
  assert (Hlen : 32 < List.length (Buffer_from_hex (cleanHexKey ("0x" ++ seedHex ++ "ffee"))))
    by (vm_compute; lia).
  split; [exact RefSdkFacts.mnemonic_round_trip_ok|]. split; [exact Hlen|].
  exact (long_key_is_truncated RefSdkFacts.mnemonic_round_trip_ok
           ("0x" ++ seedHex ++ "ffee") Hlen).
Defined.

Lemma no_signer_witness :
  decodeSignedTransaction unsignedBlob = Return {| sig := None |}
  /\ sig {| sig := None |} = None
  /\ verifyWeb3AuthSignature unsignedBlob
       {| address := "not an address"; mnemonic := EmptyString; secretKey := secretKey0 |}
     = Return false.
Proof.
  split; [reflexivity|]. split; [reflexivity|].
  exact (verify_false_without_signer unsignedBlob _ {| sig := None |}
           eq_refl (or_introl eq_refl)).
Defined.

End Examples.

(** * Further properties of the adapter, the signer and the verifier *)

Lemma cleanHexKey_prefixed (s : string) : cleanHexKey ("0x" ++ s) = s.
Proof. now destruct s. Qed.

Section SignerMore.
Context {sdk : Algosdk}.
Variable secretKey : bytes.

Lemma signLoop_acc (transactions : list bytes) :
  forall signedTxns,
    signLoop secretKey transactions signedTxns
    = (out <- signLoop secretKey transactions [] ;; Return (signedTxns ++ out)%list).
Proof.
  induction transactions as [|txn rest IH]; intros acc; cbn [signLoop bind].
  - now rewrite app_nil_r.
  - destruct (signTransaction txn secretKey) as [r|e]; cbn [bind try_catch]; [|reflexivity].
    rewrite (IH (acc ++ [blob r])%list), (IH ([] ++ [blob r])%list).
    destruct (signLoop secretKey rest []) as [o|e]; cbn [bind app]; [|reflexivity].
    now rewrite <- app_assoc.
Qed.

Lemma signLoop_app (a b : list bytes) :
  forall signedTxns,
    signLoop secretKey (a ++ b) signedTxns
    = (signedTxns' <- signLoop secretKey a signedTxns ;; signLoop secretKey b signedTxns').
Proof.
  induction a as [|txn rest IH]; intros acc; cbn [signLoop bind app]; [reflexivity|].
  destruct (signTransaction txn secretKey) as [r|e]; cbn [bind try_catch]; [|reflexivity].
  apply IH.
Qed.

Lemma signLoop_Throw (transactions : list bytes) :
  forall signedTxns e,
    signLoop secretKey transactions signedTxns = Throw e ->
    exists k cause,
      firstFailureAt sdk secretKey transactions k cause
      /\ e = JsError (SIGN_PREFIX ++ causeMessage cause).
Proof.
  induction transactions as [|txn rest IH]; intros acc e; cbn [signLoop]; [discriminate|].
  destruct (signTransaction txn secretKey) as [r|e0] eqn:E; cbn [bind try_catch].
  - intros H. destruct (IH _ _ H) as (k & cause & [(t & Hk & Ht) Hbefore] & ->).
    exists (S k), cause. split; [|reflexivity]. split; [now exists t|].
    intros [|i] x Hi Hx.
    + cbn in Hx. injection Hx as <-. now exists r.
    + apply (Hbefore i x); [lia | exact Hx].
  - intros H. exists 0, e0. split.
    + split; [now exists txn | intros i x Hi; lia].
    + congruence.
Qed.

End SignerMore.

Section MoreTheorems.
Context {sdk : Algosdk}.


(** The 0x prefix is optional: on a non-empty string that does not itself
    start with 0x, the outcome with the prefix is the outcome without it. *)
Theorem hex_prefix_is_optional (s : string) :
  s <> EmptyString ->
  startsWith s "0x" = false ->
  getAlgorandAccount (hexProvider ("0x" ++ s)) = getAlgorandAccount (hexProvider s).
Proof.
  intros Hne Hno. rewrite !getAlgorandAccount_hex by (assumption || discriminate).
  assert (E : cleanHexKey s = s) by (unfold cleanHexKey; now rewrite Hno).
  now rewrite cleanHexKey_prefixed, E.
Qed.

(** The prefix test is case-sensitive: an input that starts with 0X keeps its
    prefix, decodes to no byte at all and, the mnemonic primitive rejecting
    the empty seed, fails with the generic derivation error. *)
Theorem uppercase_prefix_fails (rest : string) :
  short_seed_rejected sdk ->
  Buffer_from_hex (cleanHexKey ("0X" ++ rest)) = []
  /\ exists msg,
       getAlgorandAccount (hexProvider ("0X" ++ rest)) = Throw (JsError (DERIVE_PREFIX ++ msg)).
Proof.
  intros Hshort. split; [reflexivity|].
  rewrite getAlgorandAccount_hex by discriminate.
  change (firstn 32 (Buffer_from_hex (cleanHexKey ("0X" ++ rest)))) with (@nil byte).
  destruct (accountOfSeed_short [] Hshort) as (msg & _ & H); [cbn; lia|].
  now exists msg.
Qed.

(** Whatever the signer returns is fully signed: the output has the length of
    the input and each element is the signed blob of the input transaction at
    the same index. *)
Theorem signer_output_is_signed (secretKey : bytes) (transactions out : list bytes) :
  createAlgorandSigner secretKey transactions = Return out ->
  List.length out = List.length transactions
  /\ forall i signedTxn, nth_error out i = Some signedTxn ->
       exists txn r, nth_error transactions i = Some txn
                  /\ signTransaction txn secretKey = Return r
                  /\ signedTxn = blob r.
Proof.
  intros H. apply signLoop_Return in H. destruct H as (rs & Hrs & ->). cbn [app]. split.
  - rewrite length_map. symmetry. exact (Forall2_length Hrs).
  - intros i st Hi. rewrite nth_error_map in Hi.
    destruct (nth_error rs i) as [r|] eqn:Hr; [|discriminate]. injection Hi as <-.
    destruct (signedOneByOne_nth_inv _ _ _ Hrs _ _ Hr) as (txn & Ht & Hs).
    now exists txn, r.
Qed.

(** The signer throws only when the signing of some transaction fails, and the
    value it throws is always an [Error] made of the fixed prefix and the
    message of the first failure; a value thrown by the library never passes
    through as it is. *)
Theorem signer_throws_only_wrapped (secretKey : bytes) (transactions : list bytes)
    (e : JsValue) :
  createAlgorandSigner secretKey transactions = Throw e ->
  exists k cause,
    firstFailureAt sdk secretKey transactions k cause
    /\ e = JsError (SIGN_PREFIX ++ causeMessage cause).
Proof. apply signLoop_Throw. Qed.

(** Signing a concatenated batch is signing the two parts in turn: the outputs
    are concatenated, and a failure in the first part is the failure of the
    whole, whatever follows. *)
Theorem signer_concatenation (secretKey : bytes) (a b : list bytes) :
  createAlgorandSigner secretKey (a ++ b)
  = (outA <- createAlgorandSigner secretKey a ;;
     outB <- createAlgorandSigner secretKey b ;;
     Return (outA ++ outB)%list).
Proof.
  unfold createAlgorandSigner. rewrite signLoop_app.
  destruct (signLoop secretKey a []) as [oa|e]; cbn [bind]; [|reflexivity].
  apply signLoop_acc.
Qed.

(** [getPublicKeyFromSecretKey] splits what concatenation joins: it succeeds
    exactly on 64 bytes, and then returns 32 bytes which, put after the first
    32 bytes of the key, give the key back; on any other length it throws an
    [Error] that names the length it got. *)
Theorem getPublicKeyFromSecretKey_split (secretKey : bytes) :
  (List.length secretKey = 64 ->
   exists pk, getPublicKeyFromSecretKey secretKey = Return pk
           /\ List.length pk = 32
           /\ (firstn 32 secretKey ++ pk)%list = secretKey)
  /\ (List.length secretKey <> 64 ->
      getPublicKeyFromSecretKey secretKey
      = Throw (JsError ("Invalid secret key length: expected 64 bytes, got "
                          ++ decimal (List.length secretKey)))).
Proof.
  unfold getPublicKeyFromSecretKey. split; intros Hlen.
  - rewrite Hlen. exists (skipn 32 secretKey). split; [reflexivity|].
    split; [rewrite length_skipn; lia | apply firstn_skipn].
  - destruct (Nat.eqb_spec (List.length secretKey) 64); [contradiction | reflexivity].
Qed.

(** The address of every derived account passes [isValidAlgorandAddress]. *)
Theorem derived_address_is_valid (provider : option IProvider)
    (A : AlgorandAccountFromWeb3Auth) :
  account_well_formed sdk ->
  empty_address_rejected sdk ->
  getAlgorandAccount provider = Return A ->
  isValidAlgorandAddress (address A) = Return true.
Proof.
  intros Hwf Hempty HA.
  destruct (derived_account_agreement _ _ Hwf HA) as [_ Haddr].
  unfold isValidAlgorandAddress. destruct (address A) as [|c s] eqn:E.
  - now destruct (Hempty _ Haddr).
  - now rewrite Haddr.
Qed.


(** [verifyWeb3AuthSignature] answers false, without throwing, when the signed
    transaction does not decode or when the account's address does not. *)
Theorem verify_false_on_decode_failure (signedTransaction : bytes)
    (account : AlgorandAccountFromWeb3Auth) :
  (exists e, decodeSignedTransaction signedTransaction = Throw e)
  \/ (exists e, decodeAddress (address account) = Throw e) ->
  verifyWeb3AuthSignature signedTransaction account = Return false.
Proof.
  intros H. destruct (verify_total signedTransaction account) as [[|] Hb]; [|assumption].
  apply verify_true_iff in Hb. destruct Hb as (d & k & da & Hd & _ & Hda & _).
  destruct H as [[e He] | [e He]]; congruence.
Qed.

End MoreTheorems.

(** * web3authConfig.ts: the module's single instance *)

Section ConfigTheorems.
Import Web3AuthConfig.
Context {w3a : Web3AuthSdk}.

(** Once [initWeb3Auth] has returned an instance, the module holds it, and
    every later call with a client id returns that same instance and leaves
    the module as it is, whatever the options of the call. *)
Theorem initWeb3Auth_returns_the_singleton
    (options later : InitWeb3AuthOptions) (m m1 : option Web3Auth) (w : Web3Auth) :
  initWeb3Auth options m = (Return w, m1) ->
  clientId later <> EmptyString ->
  m1 = Some w /\ initWeb3Auth later m1 = (Return w, m1).
Proof.
  intros H Hlater.
  assert (Hm1 : m1 = Some w).
  { unfold initWeb3Auth in H. destruct (clientId options); [discriminate|].
    destruct m as [w0|]; [now injection H as <- <-|].
    destruct (newCommonPrivateKeyProvider algorandTestNet) as [pkp|]; [|discriminate].
    destruct (newWeb3Auth _) as [w1|]; [|discriminate].
    destruct (initModal w1) as [w' [e|]]; [discriminate|]. now injection H as <- <-. }
  split; [assumption|]. subst m1. unfold initWeb3Auth.
  destruct (clientId later); [contradiction | reflexivity].
Qed.

(** When [initModal] rejects, [initWeb3Auth] throws but the module already
    holds the new object: a later call with a client id returns that object,
    as it was left by the failed initialisation, and does not run [initModal]
    again. *)
Theorem failed_initModal_stays_cached
    (options later : InitWeb3AuthOptions) (pkp : CommonPrivateKeyProvider)
    (w w' : Web3Auth) (e : JsValue) :
  clientId options <> EmptyString ->
  newCommonPrivateKeyProvider algorandTestNet = Return pkp ->
  newWeb3Auth (web3AuthConfig options pkp) = Return w ->
  initModal w = (w', Some e) ->
  clientId later <> EmptyString ->
  initWeb3Auth options None = (Throw e, Some w')
  /\ initWeb3Auth later (Some w') = (Return w', Some w').
Proof.
  intros Hid Hpkp Hnew Hinit Hlater. unfold initWeb3Auth.
  rewrite Hpkp, Hnew, Hinit.
  destruct (clientId options); [contradiction|].
  destruct (clientId later); [contradiction|]. now split.
Qed.

(** [logoutFromWeb3Auth] never resets the module: after it, rejected or not,
    the module still holds the object, and [initWeb3Auth] returns that
    logged-out object without building or initialising another one. *)
Theorem logout_keeps_the_instance (later : InitWeb3AuthOptions) (w : Web3Auth) :
  clientId later <> EmptyString ->
  exists r w',
    logoutFromWeb3Auth (Some w) = (r, Some w')
    /\ w' = fst (logout w)
    /\ initWeb3Auth later (Some w') = (Return w', Some w').
Proof.
  intros Hlater. unfold logoutFromWeb3Auth, initWeb3Auth.
  destruct (logout w) as [w' rejected]. eexists. exists w'.
  split; [reflexivity|]. split; [reflexivity|].
  destruct (clientId later); [contradiction | reflexivity].
Qed.

(** [getWeb3AuthUserInfo] never throws; it answers null, without a call to
    the library, unless the module holds an instance whose status is
    "connected". *)
Theorem getWeb3AuthUserInfo_never_throws (m : option Web3Auth) :
  exists r m',
    getWeb3AuthUserInfo m = (Return r, m')
    /\ (isWeb3AuthConnected m = false -> r = None /\ m' = m)
    /\ (r <> None -> exists w, m = Some w /\ status w = "connected").
Proof.
  unfold getWeb3AuthUserInfo. destruct m as [w|].
  - destruct (isWeb3AuthConnected (Some w)) eqn:Hc; cbn [negb].
    + destruct (getUserInfo w) as [w' [info|e]]; cbn [bind try_catch].
      * do 2 eexists. split; [reflexivity|]. split; [discriminate|].
        intros _. exists w. split; [reflexivity|]. now apply String.eqb_eq.
      * do 2 eexists. split; [reflexivity|]. split; [discriminate | congruence].
    + do 2 eexists. split; [reflexivity|]. split; [now split | congruence].
  - do 2 eexists. split; [reflexivity|]. split; [now split | congruence].
Qed.

End ConfigTheorems.

(** * The component's handlers *)

Section ComponentTheorems.
Import Web3AuthConfig.
Import Web3AuthProvider.
Context {sdk : Algosdk} {w3a : Web3AuthSdk}.

(** After [login] has run from a state that has an instance and is
    initialised, loading is over; the component is connected exactly when
    [connect] gave a provider, and exactly then it holds a provider; when it is
    not connected it holds no account and no user info, and an error message
    is set. *)
Theorem login_postconditions
    (connectOutcome : Completion (option IProvider))
    (userInfoOutcome : Completion (option UserInfo)) (s : State) :
  web3AuthInstance s <> None ->
  isInitialized s = true ->
  let s' := login connectOutcome userInfoOutcome s in
  isLoading s' = false
  /\ (isConnected s' = true <-> exists p, connectOutcome = Return (Some p))
  /\ (isConnected s' = true <-> provider s' <> None)
  /\ (isConnected s' = false ->
      algorandAccount s' = None /\ userInfo s' = None /\ error s' <> None).
Proof.
  intros Hinst Hinit. unfold login. rewrite Hinit.
  destruct (web3AuthInstance s); [|contradiction]. cbn [negb].
  destruct connectOutcome as [[p|]|e]; cbn [bind].
  - destruct (getAlgorandAccount (Some p)); destruct userInfoOutcome as [[info|]|e'];
      cbn; (split; [reflexivity|]); (split; [split; [now exists p | reflexivity]|]);
      (split; [split; [discriminate | reflexivity] | discriminate]).
  - cbn. split; [reflexivity|]. split; [split; [discriminate | now intros [p Hp]]|].
    split; [split; [discriminate | contradiction]|]. intros _. now repeat split.
  - cbn. split; [reflexivity|]. split; [split; [discriminate | now intros [p Hp]]|].
    split; [split; [discriminate | contradiction]|]. intros _. now repeat split.
Qed.

(** When [connect] gives a provider from which no account can be derived,
    [login] still ends connected: the provider is stored, the account is left
    as it was, and the error is the message of the derivation failure. *)
Theorem login_connected_without_account
    (p : IProvider) (e : JsValue)
    (userInfoOutcome : Completion (option UserInfo)) (s : State) :
  web3AuthInstance s <> None ->
  isInitialized s = true ->
  getAlgorandAccount (Some p) = Throw e ->
  let s' := login (Return (Some p)) userInfoOutcome s in
  isConnected s' = true
  /\ provider s' = Some p
  /\ algorandAccount s' = algorandAccount s
  /\ error s' = Some (messageOr "Failed to derive Algorand account" e).
Proof.
  intros Hinst Hinit He. unfold login. rewrite Hinit.
  destruct (web3AuthInstance s); [|contradiction]. cbn [negb bind]. rewrite He.
  destruct userInfoOutcome as [[info|]|e']; cbn; now repeat split.
Qed.

(** On the success path [login] stores the provider and the account derived
    from it, and clears the error. *)
Theorem login_stores_derived_account
    (p : IProvider) (A : AlgorandAccountFromWeb3Auth)
    (userInfoOutcome : Completion (option UserInfo)) (s : State) :
  web3AuthInstance s <> None ->
  isInitialized s = true ->
  getAlgorandAccount (Some p) = Return A ->
  let s' := login (Return (Some p)) userInfoOutcome s in
  isConnected s' = true
  /\ provider s' = Some p
  /\ algorandAccount s' = Some A
  /\ error s' = None.
Proof.
  intros Hinst Hinit HA. unfold login. rewrite Hinit.
  destruct (web3AuthInstance s); [|contradiction]. cbn [negb bind]. rewrite HA.
  destruct userInfoOutcome as [[info|]|e']; cbn; now repeat split.
Qed.

(** [logout] always ends the session in the component, whether the library's
    logout was rejected or not: no provider, not connected, no account, no
    user info, not loading; the error is set exactly when it was rejected.
    The instance and the initialised flag are left alone. *)
Theorem logout_clears_session (logoutOutcome : Completion unit) (s : State) :
  let s' := logout logoutOutcome s in
  provider s' = None
  /\ isConnected s' = false
  /\ algorandAccount s' = None
  /\ userInfo s' = None
  /\ isLoading s' = false
  /\ isInitialized s' = isInitialized s
  /\ web3AuthInstance s' = web3AuthInstance s
  /\ (error s' = None <-> exists u, logoutOutcome = Return u).
Proof.
  unfold logout. destruct logoutOutcome as [u|e]; cbn; repeat (split; [reflexivity|]).
  - split; [now exists u | reflexivity].
  - split; [discriminate | now intros [u Hu]].
Qed.

(** When [initWeb3Auth] throws at mount, the component ends initialised but
    without an instance, and [login] then only reports "Web3Auth not
    initialized", whatever [connect] would answer. If the module kept the
    object of a rejected [initModal], mounting again gives the component that
    object. *)
Theorem failed_mount_blocks_login
    (options : InitWeb3AuthOptions) (m m1 : option Web3Auth) (e : JsValue)
    (connectOutcome : Completion (option IProvider))
    (userInfoOutcome : Completion (option UserInfo)) :
  initWeb3Auth options m = (Throw e, m1) ->
  let s1 := fst (mount options m initialState) in
  snd (mount options m initialState) = m1
  /\ isInitialized s1 = true
  /\ isLoading s1 = false
  /\ web3AuthInstance s1 = None
  /\ error s1 = Some (messageOr "Failed to initialize Web3Auth" e)
  /\ login connectOutcome userInfoOutcome s1
     = setError (Some "Web3Auth not initialized") s1
  /\ forall w, m1 = Some w -> clientId options <> EmptyString ->
       web3AuthInstance (fst (mount options m1 s1)) = Some w.
Proof.
  intros H. unfold mount. rewrite H. cbn.
  repeat (split; [reflexivity|]). intros w -> Hid.
  unfold initWeb3Auth. destruct (clientId options); [contradiction|].
  destruct ((status w =? "connected")%string) eqn:Hst;
    [destruct (Web3AuthConfig.provider w) as [i|] eqn:Hp|].
  - destruct (getWeb3AuthUserInfo (Some w)) as [u m2]. cbn [fst].
    unfold initialize. rewrite Hst, Hp.
    destruct (getAlgorandAccount (Some i)); destruct u as [[info|]|e']; reflexivity.
  - cbn [fst]. unfold initialize. now rewrite Hst, Hp.
  - cbn [fst]. unfold initialize. now rewrite Hst.
Qed.

(** A session found connected at mount is restored: when [initWeb3Auth]
    returns an object whose status is "connected" and that has a provider, the
    component ends initialised and connected with that provider, and with the
    account derived from it when the derivation succeeds. *)
Theorem mount_restores_session
    (options : InitWeb3AuthOptions) (m m1 : option Web3Auth) (w : Web3Auth)
    (p : IProvider) (A : AlgorandAccountFromWeb3Auth) :
  initWeb3Auth options m = (Return w, m1) ->
  status w = "connected" ->
  Web3AuthConfig.provider w = Some p ->
  getAlgorandAccount (Some p) = Return A ->
  let s1 := fst (mount options m initialState) in
  isInitialized s1 = true
  /\ isLoading s1 = false
  /\ isConnected s1 = true
  /\ Web3AuthProvider.provider s1 = Some p
  /\ web3AuthInstance s1 = Some w
  /\ algorandAccount s1 = Some A
  /\ error s1 = None.
Proof.
  intros H Hst Hp HA. unfold mount. rewrite H, Hst, Hp. cbn [String.eqb].
  change ("connected" =? "connected")%string with true. cbv iota.
  destruct (getWeb3AuthUserInfo m1) as [u m2]. cbn [fst].
  unfold initialize. rewrite Hst, Hp, HA.
  change ("connected" =? "connected")%string with true.
  destruct u as [[info|]|e']; cbn; now repeat split.
Qed.

End ComponentTheorems.

(** * The further properties at concrete inputs *)

Module MoreExamples.
Import Inputs.
Import MoreInputs.

Section OnRefSdk.
#[local] Existing Instance RefSdk.sdk.


Lemma hex_prefix_witness :
  seedHex <> EmptyString /\ startsWith seedHex "0x" = false
  /\ getAlgorandAccount (hexProvider ("0x" ++ seedHex)) = getAlgorandAccount (hexProvider seedHex).
Proof.
  assert (Hne : seedHex <> EmptyString) by discriminate.
  split; [exact Hne|]. split; [reflexivity|].
  exact (hex_prefix_is_optional seedHex Hne eq_refl).
Defined.

Lemma uppercase_prefix_witness :
  short_seed_rejected RefSdk.sdk
  /\ Buffer_from_hex (cleanHexKey ("0X" ++ seedHex)) = []
  /\ exists msg,
       getAlgorandAccount (hexProvider ("0X" ++ seedHex))
       = Throw (JsError (DERIVE_PREFIX ++ msg)).
Proof.
  split; [exact RefSdkFacts.short_seed_rejected_ok|].
  exact (uppercase_prefix_fails seedHex RefSdkFacts.short_seed_rejected_ok).
Defined.

Lemma signer_output_witness :
  exists out,
    createAlgorandSigner secretKey0 [goodTxn; otherTxn] = Return out
    /\ List.length out = 2
    /\ forall i signedTxn, nth_error out i = Some signedTxn ->
         exists txn r, nth_error [goodTxn; otherTxn] i = Some txn
                    /\ signTransaction txn secretKey0 = Return r
                    /\ signedTxn = blob r.
Proof.
  eexists. split; [reflexivity|].
  exact (signer_output_is_signed secretKey0 [goodTxn; otherTxn] _ eq_refl).
Defined.

Lemma signer_throw_witness :
  createAlgorandSigner secretKey0 [goodTxn; badTxn; otherTxn]
  = Throw (JsError (SIGN_PREFIX ++ "malformed transaction"))
  /\ exists k cause,
       firstFailureAt RefSdk.sdk secretKey0 [goodTxn; badTxn; otherTxn] k cause
       /\ JsError (SIGN_PREFIX ++ "malformed transaction")
          = JsError (SIGN_PREFIX ++ causeMessage cause).
Proof.
  split; [reflexivity|].
  exact (signer_throws_only_wrapped secretKey0 [goodTxn; badTxn; otherTxn] _ eq_refl).
Defined.

Lemma derived_address_witness :
  account_well_formed RefSdk.sdk /\ empty_address_rejected RefSdk.sdk
  /\ exists A,
       getAlgorandAccount (hexProvider ("0x" ++ seedHex)) = Return A
       /\ isValidAlgorandAddress (address A) = Return true.
Proof.
  split; [exact RefSdkFacts.account_well_formed_ok|].
  split; [exact RefSdkFacts.empty_address_rejected_ok|].
  eexists. split; [reflexivity|].
  exact (derived_address_is_valid (hexProvider ("0x" ++ seedHex)) _
           RefSdkFacts.account_well_formed_ok RefSdkFacts.empty_address_rejected_ok eq_refl).
Defined.

Lemma verify_decode_failure_witness :
  (exists e, decodeSignedTransaction badTxn = Throw e)
  /\ verifyWeb3AuthSignature badTxn
       {| address := "not an address"; mnemonic := EmptyString; secretKey := secretKey0 |}
     = Return false.
Proof.
  assert (H : exists e, decodeSignedTransaction badTxn = Throw e)
    by (eexists; reflexivity).
  split; [exact H|].
  exact (verify_false_on_decode_failure badTxn _ (or_introl H)).
Defined.

End OnRefSdk.


Section OnRefWeb3Auth.
Import Web3AuthConfig.
Import Web3AuthProvider.
#[local] Existing Instance RefSdk.sdk.
#[local] Existing Instance Web3AuthConfig.Ref.sdk.

Lemma singleton_witness :
  initWeb3Auth (someOptions "client") None = (Return readyObj, Some readyObj)
  /\ clientId otherOptions <> EmptyString
  /\ initWeb3Auth otherOptions (Some readyObj) = (Return readyObj, Some readyObj).
Proof.
  assert (Hid : clientId otherOptions <> EmptyString) by discriminate.
  split; [reflexivity|]. split; [exact Hid|].
  exact (proj2 (initWeb3Auth_returns_the_singleton (someOptions "client") otherOptions
                  None _ readyObj eq_refl Hid)).
Defined.

Lemma failed_initModal_witness :
  initWeb3Auth (someOptions "offline") None
  = (Throw (JsError "network unreachable"), Some erroredObj)
  /\ initWeb3Auth otherOptions (Some erroredObj) = (Return erroredObj, Some erroredObj).
Proof.
  refine (failed_initModal_stays_cached (someOptions "offline") otherOptions
            algorandTestNet {| Ref.objClient := "offline"; Ref.objStatus := "not_ready" |}
            erroredObj (JsError "network unreachable") _ eq_refl eq_refl eq_refl _);
    discriminate.
Defined.

Lemma logout_keeps_witness :
  clientId otherOptions <> EmptyString
  /\ exists r w',
       logoutFromWeb3Auth (Some connectedObj) = (r, Some w')
       /\ w' = fst (Web3AuthConfig.logout connectedObj)
       /\ initWeb3Auth otherOptions (Some w') = (Return w', Some w').
Proof.
  assert (Hid : clientId otherOptions <> EmptyString) by discriminate.
  split; [exact Hid|].
  exact (logout_keeps_the_instance otherOptions connectedObj Hid).
Defined.

Lemma login_postconditions_witness :
  web3AuthInstance readyState <> None /\ isInitialized readyState = true
  /\ isLoading (login (Return None) (Return None) readyState) = false
  /\ isConnected (login (Return None) (Return None) readyState) = false
  /\ error (login (Return None) (Return None) readyState)
     = Some "Failed to connect Web3Auth provider".
Proof.
  assert (Hinst : web3AuthInstance readyState <> None) by discriminate.
  split; [exact Hinst|]. split; [reflexivity|].
  split; [|split; reflexivity].
  exact (proj1 (login_postconditions (Return None) (Return None) readyState Hinst eq_refl)).
Defined.

Lemma login_without_account_witness :
  getAlgorandAccount (Some {| request_private_key := Return (JsString "abcd") |})
  = Throw (JsError (DERIVE_PREFIX ++ "Seed length must be 32"))
  /\ let s' := login (Return (hexProvider "abcd")) (Return None) readyState in
     isConnected s' = true
     /\ Web3AuthProvider.provider s' = hexProvider "abcd"
     /\ algorandAccount s' = algorandAccount readyState
     /\ error s' = Some (messageOr "Failed to derive Algorand account"
                           (JsError (DERIVE_PREFIX ++ "Seed length must be 32"))).
Proof.
  split; [reflexivity|].
  refine (login_connected_without_account
            {| request_private_key := Return (JsString "abcd") |}
            (JsError (DERIVE_PREFIX ++ "Seed length must be 32"))
            (Return None) readyState _ eq_refl eq_refl).
  discriminate.
Defined.

Lemma login_success_witness :
  exists A,
    getAlgorandAccount (hexProvider seedHex) = Return A
    /\ let s' := login (Return (hexProvider seedHex)) (Return (Some "user@example.org"))
                   readyState in
       isConnected s' = true
       /\ Web3AuthProvider.provider s' = hexProvider seedHex
       /\ algorandAccount s' = Some A
       /\ error s' = None.
Proof.
  eexists. split; [reflexivity|].
  refine (login_stores_derived_account
            {| request_private_key := Return (JsString seedHex) |} _
            (Return (Some "user@example.org")) readyState _ eq_refl eq_refl).
  discriminate.
Defined.

Lemma failed_mount_witness :
  initWeb3Auth (someOptions "offline") None
  = (Throw (JsError "network unreachable"), Some erroredObj)
  /\ let s1 := fst (mount (someOptions "offline") None initialState) in
     web3AuthInstance s1 = None
     /\ login (Return (hexProvider seedHex)) (Return None) s1
        = setError (Some "Web3Auth not initialized") s1
     /\ web3AuthInstance (fst (mount (someOptions "offline") (Some erroredObj) s1))
        = Some erroredObj.
Proof.
  split; [reflexivity|].
  pose proof (failed_mount_blocks_login (someOptions "offline") None (Some erroredObj)
                (JsError "network unreachable") (Return (hexProvider seedHex)) (Return None)
                eq_refl) as H.
  cbv zeta in H. destruct H as (_ & _ & _ & Hinst & _ & Hlogin & Hagain).
  split; [exact Hinst|]. split; [exact Hlogin|].
  apply Hagain; [reflexivity | discriminate].
Defined.

Lemma mount_restores_witness :
  exists A,
    getAlgorandAccount (hexProvider seedHex) = Return A
    /\ initWeb3Auth (someOptions "client") (Some connectedObj)
       = (Return connectedObj, Some connectedObj)
    /\ let s1 := fst (mount (someOptions "client") (Some connectedObj) initialState) in
       isInitialized s1 = true
       /\ isLoading s1 = false
       /\ isConnected s1 = true
       /\ Web3AuthProvider.provider s1 = hexProvider seedHex
       /\ web3AuthInstance s1 = Some connectedObj
       /\ algorandAccount s1 = Some A
       /\ error s1 = None.
Proof.
  eexists. split; [reflexivity|]. split; [reflexivity|].
  exact (mount_restores_session (someOptions "client") (Some connectedObj) _ connectedObj
           {| request_private_key := Return (JsString seedHex) |} _
           eq_refl eq_refl eq_refl eq_refl).
Defined.

End OnRefWeb3Auth.

End MoreExamples.
